(** * Xion Stack: configuration registry, capability predicates and
      provider factories

    A shallow embedding of [src/lib/config.ts], [src/lib/auth.ts],
    [src/lib/database.ts] and the payments module, with the properties
    of the specification stated and proved over it.

    - [process.env] is a finite map from variable names to strings.
    - An [async] method is a function returning a settled promise:
      [Resolved v] or [Rejected e]; it never throws synchronously.
    - A synchronous function that can throw returns a [Completion].
    - Mutable objects (the mock provider's [Map], the [Storage]) are
      passed explicitly as state. *)

From Stdlib Require Import String Ascii List Bool ZArith Lia DecimalString.
From stdpp Require Import base option list strings gmap.
Import ListNotations.

Set Warnings "-register-all".

Local Open Scope string_scope.
Local Open Scope list_scope.

(* ===================================================================== *)
(** ** JavaScript values the code relies on                              *)
(* ===================================================================== *)

Module Js.

(** [process.env]: every value is a string, an unset variable reads
    as [undefined] ([None]). *)
Abbreviation Env := (gmap string string).

(** Truthiness of a [string | undefined]: [undefined] and the empty
    string are falsy. *)
Definition truthy (v : option string) : bool :=
  match v with
  | Some s => negb (String.eqb s EmptyString)
  | None => false
  end.

(** Truthiness of a [boolean | undefined]. *)
Definition truthyBool (v : option bool) : bool :=
  match v with
  | Some b => b
  | None => false
  end.

(** [v === lit] for a [string | undefined] against a string literal. *)
Definition strictEq (v : option string) (lit : string) : bool :=
  match v with
  | Some s => String.eqb s lit
  | None => false
  end.

(** [v || dflt] where [dflt] is a string. *)
Definition orElse (v : option string) (dflt : string) : string :=
  match v with
  | Some s => if String.eqb s EmptyString then dflt else s
  | None => dflt
  end.

(** Error objects: the constructor that built them and the message.
    [errorName] is the [name] property. *)
Inductive JsError : Type :=
| Error (message : string)
| TypeError (message : string).

Definition errorName (e : JsError) : string :=
  match e with
  | Error _ => "Error"
  | TypeError _ => "TypeError"
  end.

Definition errorMessage (e : JsError) : string :=
  match e with
  | Error m => m
  | TypeError m => m
  end.

(** Result of a synchronous call. *)
Inductive Completion (A : Type) : Type :=
| Normal (a : A)
| Throw (e : JsError).
Arguments Normal {A} a.
Arguments Throw {A} e.

(** Result of awaiting the promise an [async] method returns. *)
Inductive Promise (A : Type) : Type :=
| Resolved (a : A)
| Rejected (e : JsError).
Arguments Resolved {A} a.
Arguments Rejected {A} e.

(** A promise with its value forgotten. *)
Inductive Settled : Type :=
| Fulfilled
| RejectedWith (e : JsError).

Definition settle {A : Type} (p : Promise A) : Settled :=
  match p with
  | Resolved _ => Fulfilled
  | Rejected e => RejectedWith e
  end.

(** [s.split(sep)[0]] for a one-character separator: the characters
    before the first occurrence of [sep], the whole string when [sep]
    does not occur. *)
Fixpoint splitHead (sep : ascii) (s : string) : string :=
  match s with
  | EmptyString => EmptyString
  | String c rest =>
      if Ascii.eqb c sep then EmptyString else String c (splitHead sep rest)
  end.

(** [s.split(sep)] for a one-character separator. *)
Fixpoint split (sep : ascii) (s : string) : list string :=
  match s with
  | EmptyString => [EmptyString]
  | String c rest =>
      if Ascii.eqb c sep then EmptyString :: split sep rest
      else match split sep rest with
           | seg :: segs => String c seg :: segs
           | [] => [String c EmptyString]
           end
  end.

(** [a[0]] on an array of strings. *)
Definition first (a : list string) : option string := head a.

(** [s.includes(sub)] for a one-character [sub]. *)
Fixpoint includesChar (c : ascii) (s : string) : bool :=
  match s with
  | EmptyString => false
  | String d rest => Ascii.eqb d c || includesChar c rest
  end.

End Js.
Import Js.

(* ===================================================================== *)
(** ** [src/lib/config.ts]                                               *)
(* ===================================================================== *)

Module Config.

Record FeatureConfig : Type := {
  enabled : bool;
  required : option bool;
  fallback : option string
}.

Record Features : Type := {
  authentication : FeatureConfig;
  database : FeatureConfig;
  payments : FeatureConfig;
  realtime : FeatureConfig;
  analytics : FeatureConfig;
  email : FeatureConfig;
  fileUpload : FeatureConfig;
  notifications : FeatureConfig
}.

(** [FeatureConfig & { ... }]: the common part and the credentials. *)
Record SupabaseConfig : Type := {
  supabase_base : FeatureConfig;
  url : option string;
  anonKey : option string
}.

Record StripeConfig : Type := {
  stripe_base : FeatureConfig;
  publishableKey : option string;
  secretKey : option string;
  webhookSecret : option string
}.

Record Auth0Config : Type := {
  auth0_base : FeatureConfig;
  domain : option string;
  clientId : option string;
  clientSecret : option string
}.

Record SendgridConfig : Type := {
  sendgrid_base : FeatureConfig;
  apiKey : option string
}.

Record AwsConfig : Type := {
  aws_base : FeatureConfig;
  accessKeyId : option string;
  secretAccessKey : option string;
  region : option string
}.

Record Providers : Type := {
  supabase : SupabaseConfig;
  stripe : StripeConfig;
  auth0 : Auth0Config;
  sendgrid : SendgridConfig;
  aws : AwsConfig
}.

Record Ui : Type := {
  theme : string;
  primaryColor : string;
  showBranding : bool;
  enableAnimations : bool
}.

Record App : Type := {
  name : string;
  description : string;
  app_url : string;
  supportEmail : string
}.

Record XionConfig : Type := {
  features : Features;
  providers : Providers;
  ui : Ui;
  app : App
}.

(** [keyof XionConfig['features']] *)
Inductive Feature : Type :=
| Authentication | Database | Payments | Realtime
| Analytics | Email | FileUpload | Notifications.

(** [keyof XionConfig['providers']] *)
Inductive Provider : Type :=
| Supabase | Stripe | Auth0 | Sendgrid | Aws.

Definition allFeatures : list Feature :=
  [Authentication; Database; Payments; Realtime;
   Analytics; Email; FileUpload; Notifications].

Definition allProviders : list Provider :=
  [Supabase; Stripe; Auth0; Sendgrid; Aws].

(** The property name of each key. *)
Definition featureKey (f : Feature) : string :=
  match f with
  | Authentication => "authentication"
  | Database => "database"
  | Payments => "payments"
  | Realtime => "realtime"
  | Analytics => "analytics"
  | Email => "email"
  | FileUpload => "fileUpload"
  | Notifications => "notifications"
  end.

Definition providerKey (p : Provider) : string :=
  match p with
  | Supabase => "supabase"
  | Stripe => "stripe"
  | Auth0 => "auth0"
  | Sendgrid => "sendgrid"
  | Aws => "aws"
  end.

(** [defaultConfig], as a function of [process.env]. *)
Definition defaultConfig (env : Env) : XionConfig := {|
  features := {|
    authentication := {|
      enabled := strictEq (env !! "NEXT_PUBLIC_ENABLE_AUTH") "true";
      required := Some false;
      fallback := Some "No authentication required" |};
    database := {|
      enabled := strictEq (env !! "NEXT_PUBLIC_ENABLE_DATABASE") "true";
      required := Some false;
      fallback := Some "Using local storage" |};
    payments := {|
      enabled := strictEq (env !! "NEXT_PUBLIC_ENABLE_PAYMENTS") "true";
      required := Some false;
      fallback := Some "Payments disabled" |};
    realtime := {|
      enabled := strictEq (env !! "NEXT_PUBLIC_ENABLE_REALTIME") "true";
      required := Some false;
      fallback := Some "Real-time features disabled" |};
    analytics := {|
      enabled := strictEq (env !! "NEXT_PUBLIC_ENABLE_ANALYTICS") "true";
      required := Some false;
      fallback := Some "Analytics disabled" |};
    email := {|
      enabled := strictEq (env !! "NEXT_PUBLIC_ENABLE_EMAIL") "true";
      required := Some false;
      fallback := Some "Email features disabled" |};
    fileUpload := {|
      enabled := strictEq (env !! "NEXT_PUBLIC_ENABLE_FILE_UPLOAD") "true";
      required := Some false;
      fallback := Some "File upload disabled" |};
    notifications := {|
      enabled := strictEq (env !! "NEXT_PUBLIC_ENABLE_NOTIFICATIONS") "true";
      required := Some false;
      fallback := Some "Notifications disabled" |}
  |};
  providers := {|
    supabase := {|
      supabase_base := {|
        enabled := truthy (env !! "NEXT_PUBLIC_SUPABASE_URL")
                   && truthy (env !! "NEXT_PUBLIC_SUPABASE_ANON_KEY");
        required := Some false;
        fallback := None |};
      url := env !! "NEXT_PUBLIC_SUPABASE_URL";
      anonKey := env !! "NEXT_PUBLIC_SUPABASE_ANON_KEY" |};
    stripe := {|
      stripe_base := {|
        enabled := truthy (env !! "NEXT_PUBLIC_STRIPE_PUBLISHABLE_KEY")
                   && truthy (env !! "STRIPE_SECRET_KEY");
        required := Some false;
        fallback := None |};
      publishableKey := env !! "NEXT_PUBLIC_STRIPE_PUBLISHABLE_KEY";
      secretKey := env !! "STRIPE_SECRET_KEY";
      webhookSecret := env !! "STRIPE_WEBHOOK_SECRET" |};
    auth0 := {|
      auth0_base := {|
        enabled := truthy (env !! "AUTH0_DOMAIN")
                   && truthy (env !! "AUTH0_CLIENT_ID");
        required := Some false;
        fallback := None |};
      domain := env !! "AUTH0_DOMAIN";
      clientId := env !! "AUTH0_CLIENT_ID";
      clientSecret := env !! "AUTH0_CLIENT_SECRET" |};
    sendgrid := {|
      sendgrid_base := {|
        enabled := truthy (env !! "SENDGRID_API_KEY");
        required := Some false;
        fallback := None |};
      apiKey := env !! "SENDGRID_API_KEY" |};
    aws := {|
      aws_base := {|
        enabled := truthy (env !! "AWS_ACCESS_KEY_ID")
                   && truthy (env !! "AWS_SECRET_ACCESS_KEY");
        required := Some false;
        fallback := None |};
      accessKeyId := env !! "AWS_ACCESS_KEY_ID";
      secretAccessKey := env !! "AWS_SECRET_ACCESS_KEY";
      region := Some (orElse (env !! "AWS_REGION") "us-east-1") |}
  |};
  ui := {|
    theme := orElse (env !! "NEXT_PUBLIC_THEME") "system";
    primaryColor := orElse (env !! "NEXT_PUBLIC_PRIMARY_COLOR") "#3b82f6";
    showBranding := negb (strictEq (env !! "NEXT_PUBLIC_SHOW_BRANDING") "false");
    enableAnimations :=
      negb (strictEq (env !! "NEXT_PUBLIC_ENABLE_ANIMATIONS") "false") |};
  app := {|
    name := orElse (env !! "NEXT_PUBLIC_APP_NAME") "Xion Stack App";
    description := orElse (env !! "NEXT_PUBLIC_APP_DESCRIPTION")
                          "Built with the bulletproof Xion Stack";
    app_url := orElse (env !! "NEXT_PUBLIC_APP_URL") "http://localhost:3000";
    supportEmail := orElse (env !! "NEXT_PUBLIC_SUPPORT_EMAIL")
                           "support@example.com" |}
|}.

(** [export const config = defaultConfig] *)
Definition config (env : Env) : XionConfig := defaultConfig env.

(** [config.features[feature]] for a key of the declared type. *)
Definition featureAt (cfg : XionConfig) (feature : Feature) : FeatureConfig :=
  match feature with
  | Authentication => authentication (features cfg)
  | Database => database (features cfg)
  | Payments => payments (features cfg)
  | Realtime => realtime (features cfg)
  | Analytics => analytics (features cfg)
  | Email => email (features cfg)
  | FileUpload => fileUpload (features cfg)
  | Notifications => notifications (features cfg)
  end.

(** [XionConfig['providers'][T]] *)
Definition ProviderConfigOf (provider : Provider) : Type :=
  match provider with
  | Supabase => SupabaseConfig
  | Stripe => StripeConfig
  | Auth0 => Auth0Config
  | Sendgrid => SendgridConfig
  | Aws => AwsConfig
  end.

(** [config.providers[provider]] *)
Definition getProviderConfig (cfg : XionConfig) (provider : Provider)
  : ProviderConfigOf provider :=
  match provider with
  | Supabase => supabase (providers cfg)
  | Stripe => stripe (providers cfg)
  | Auth0 => auth0 (providers cfg)
  | Sendgrid => sendgrid (providers cfg)
  | Aws => aws (providers cfg)
  end.

(** The [FeatureConfig] part of [config.providers[provider]]. *)
Definition providerBase (cfg : XionConfig) (provider : Provider) : FeatureConfig :=
  match provider with
  | Supabase => supabase_base (supabase (providers cfg))
  | Stripe => stripe_base (stripe (providers cfg))
  | Auth0 => auth0_base (auth0 (providers cfg))
  | Sendgrid => sendgrid_base (sendgrid (providers cfg))
  | Aws => aws_base (aws (providers cfg))
  end.

Definition isFeatureEnabled (cfg : XionConfig) (feature : Feature) : bool :=
  enabled (featureAt cfg feature).

Definition isProviderEnabled (cfg : XionConfig) (provider : Provider) : bool :=
  enabled (providerBase cfg provider).

Definition getFeatureFallback (cfg : XionConfig) (feature : Feature) : string :=
  orElse (fallback (featureAt cfg feature)) "Feature disabled".

(** [Object.entries(config.features)]: own keys in insertion order. *)
Definition featureEntries (cfg : XionConfig) : list (string * FeatureConfig) :=
  map (fun f => (featureKey f, featureAt cfg f)) allFeatures.

Record Validation : Type := {
  valid : bool;
  errors : list string
}.

(** [errors.push(msg)] *)
Definition push (errors : list string) (msg : string) : list string :=
  errors ++ [msg].

Definition requiredFeatureMessage (feature : string) : string :=
  "Required feature '" +:+ feature +:+ "' is disabled".

Definition databaseMessage : string :=
  "Database feature enabled but Supabase provider not configured".
Definition paymentsMessage : string :=
  "Payments feature enabled but Stripe provider not configured".
Definition emailMessage : string :=
  "Email feature enabled but SendGrid provider not configured".

(** The callback of [Object.entries(config.features).forEach]. *)
Definition checkRequired (errors : list string)
  (entry : string * FeatureConfig) : list string :=
  let '(feature, fc) := entry in
  if truthyBool (required fc) && negb (enabled fc)
  then push errors (requiredFeatureMessage feature)
  else errors.

Definition validateConfig (cfg : XionConfig) : Validation :=
  let errors : list string := [] in
  (* required features *)
  let errors := fold_left checkRequired (featureEntries cfg) errors in
  (* provider dependencies *)
  let errors :=
    if enabled (database (features cfg))
       && negb (enabled (supabase_base (supabase (providers cfg))))
    then push errors databaseMessage else errors in
  let errors :=
    if enabled (payments (features cfg))
       && negb (enabled (stripe_base (stripe (providers cfg))))
    then push errors paymentsMessage else errors in
  let errors :=
    if enabled (email (features cfg))
       && negb (enabled (sendgrid_base (sendgrid (providers cfg))))
    then push errors emailMessage else errors in
  {| valid := Nat.eqb (length errors) 0; errors := errors |}.

(** The environment variable that switches each feature. *)
Definition featureVariable (f : Feature) : string :=
  match f with
  | Authentication => "NEXT_PUBLIC_ENABLE_AUTH"
  | Database => "NEXT_PUBLIC_ENABLE_DATABASE"
  | Payments => "NEXT_PUBLIC_ENABLE_PAYMENTS"
  | Realtime => "NEXT_PUBLIC_ENABLE_REALTIME"
  | Analytics => "NEXT_PUBLIC_ENABLE_ANALYTICS"
  | Email => "NEXT_PUBLIC_ENABLE_EMAIL"
  | FileUpload => "NEXT_PUBLIC_ENABLE_FILE_UPLOAD"
  | Notifications => "NEXT_PUBLIC_ENABLE_NOTIFICATIONS"
  end.

End Config.
Import Config.

(* ===================================================================== *)
(** ** [src/lib/config.ts] at run time, with keys that are plain strings  *)
(* ===================================================================== *)

(** The parameter types [keyof XionConfig['features']] and
    [keyof XionConfig['providers']] exist only for the type checker.
    The emitted JavaScript indexes the object with whatever string it
    is given; this module follows that property access. *)
Module ConfigRuntime.

(** Result of [obj[key]] on an object literal: an own property, a
    member inherited from [Object.prototype], or [undefined]. *)
Inductive Property (A : Type) : Type :=
| Own (a : A)
| Inherited
| Undefined.
Arguments Own {A} a.
Arguments Inherited {A}.
Arguments Undefined {A}.

(** The property names of [Object.prototype]. *)
Definition objectPrototypeKeys : list string :=
  ["constructor"; "__defineGetter__"; "__defineSetter__"; "hasOwnProperty";
   "__lookupGetter__"; "__lookupSetter__"; "isPrototypeOf";
   "propertyIsEnumerable"; "toString"; "valueOf"; "__proto__";
   "toLocaleString"].

Definition inKeys (key : string) (keys : list string) : bool :=
  existsb (String.eqb key) keys.

Definition getProperty {A : Type} (own : list (string * A)) (key : string)
  : Property A :=
  match find (fun entry => String.eqb (fst entry) key) own with
  | Some entry => Own (snd entry)
  | None => if inKeys key objectPrototypeKeys then Inherited else Undefined
  end.

(** A value of [config.providers]: which provider it configures and
    the whole object, credentials included. *)
Definition ProviderObject : Type := { p : Provider & ProviderConfigOf p }.

(** [config.providers[provider]] for an enumerated key, as the object
    it is. *)
Definition providerObject (cfg : XionConfig) (p : Provider) : ProviderObject :=
  existT p (Config.getProviderConfig cfg p).

(** The [FeatureConfig] members of a provider object. *)
Definition objectBase (o : ProviderObject) : FeatureConfig :=
  match o with
  | existT p c =>
      match p return ProviderConfigOf p -> FeatureConfig with
      | Supabase => supabase_base
      | Stripe => stripe_base
      | Auth0 => auth0_base
      | Sendgrid => sendgrid_base
      | Aws => aws_base
      end c
  end.

(** The own properties of [config.providers]. *)
Definition providerEntries (cfg : XionConfig) : list (string * ProviderObject) :=
  map (fun p => (providerKey p, providerObject cfg p)) allProviders.

Definition cannotRead (prop : string) : JsError :=
  TypeError ("Cannot read properties of undefined (reading '" +:+ prop +:+ "')").

(** [config.features[feature].enabled]; [None] is [undefined]. *)
Definition isFeatureEnabled (cfg : XionConfig) (feature : string)
  : Completion (option bool) :=
  match getProperty (featureEntries cfg) feature with
  | Own fc => Normal (Some (enabled fc))
  | Inherited => Normal None
  | Undefined => Throw (cannotRead "enabled")
  end.

(** [config.providers[provider].enabled] *)
Definition isProviderEnabled (cfg : XionConfig) (provider : string)
  : Completion (option bool) :=
  match getProperty (providerEntries cfg) provider with
  | Own pc => Normal (Some (enabled (objectBase pc)))
  | Inherited => Normal None
  | Undefined => Throw (cannotRead "enabled")
  end.

(** [config.features[feature].fallback || 'Feature disabled'] *)
Definition getFeatureFallback (cfg : XionConfig) (feature : string)
  : Completion string :=
  match getProperty (featureEntries cfg) feature with
  | Own fc => Normal (orElse (fallback fc) "Feature disabled")
  | Inherited => Normal (orElse None "Feature disabled")
  | Undefined => Throw (cannotRead "fallback")
  end.

(** [config.providers[provider]]: the object itself is returned; no
    member is read, nothing throws. *)
Definition getProviderConfig (cfg : XionConfig) (provider : string)
  : Completion (Property ProviderObject) :=
  Normal (getProperty (providerEntries cfg) provider).

(** A call fails with an error of the given kind: it throws, and the
    thrown error carries that name. *)
Definition failsWithKind {A : Type} (kind : string) (c : Completion A) : Prop :=
  exists e, c = Throw e /\ errorName e = kind.

End ConfigRuntime.

(* ===================================================================== *)
(** ** [src/lib/auth.ts]                                                 *)
(* ===================================================================== *)

Module Auth.

Record User : Type := {
  id : string;
  email : string;
  name : option string;
  avatar : option string;
  role : option string;
  metadata : option (list (string * string))
}.

(** The classes implementing [AuthProvider]. *)
Inductive AuthProvider : Type :=
| SupabaseAuthProvider
| Auth0Provider
| MockAuthProvider
| NoAuthProvider.

(** The operation set of [AuthProvider]. *)
Inductive AuthOp : Type :=
| signIn | signUp | signOut | getCurrentUser | resetPassword | updateProfile.

Definition authOps : list AuthOp :=
  [signIn; signUp; signOut; getCurrentUser; resetPassword; updateProfile].

(** *** [MockAuthProvider] *)

(** [private users: Map<string, User>]: entries in insertion order. *)
Abbreviation Users := (list (string * User)).

(** [new Map()] *)
Definition newUsers : Users := [].

(** [users.set(key, value)]: an existing key keeps its position. *)
Fixpoint mapSet (users : Users) (key : string) (value : User) : Users :=
  match users with
  | [] => [(key, value)]
  | (k, v) :: rest =>
      if String.eqb k key then (key, value) :: rest
      else (k, v) :: mapSet rest key value
  end.

(** [users.values().next().value] *)
Definition firstValue (users : Users) : option User :=
  match users with
  | [] => None
  | (_, v) :: _ => Some v
  end.

(** [String(n)] for a non-negative integer. *)
Definition numberToString (n : N) : string :=
  DecimalString.NilZero.string_of_uint (N.to_uint n).

Definition MockAuthProvider_signIn (users : Users) (email password : string)
  : Users * Promise (option User) :=
  let user := {|
    id := "mock-user-1";
    email := email;
    name := first (split "@"%char email);
    avatar := None;
    role := Some "user";
    metadata := None |} in
  let users := mapSet users email user in
  (users, Resolved (Some user)).

(** [now] is the value of [Date.now()]. *)
Definition MockAuthProvider_signUp (now : N) (users : Users)
  (email password : string) (name : option string)
  : Users * Promise (option User) :=
  let user := {|
    id := "mock-user-" +:+ numberToString now;
    email := email;
    name := if truthy name then name else first (split "@"%char email);
    avatar := None;
    role := Some "user";
    metadata := None |} in
  let users := mapSet users email user in
  (users, Resolved (Some user)).

Definition MockAuthProvider_signOut (users : Users) : Users * Promise unit :=
  (* Mock sign out *)
  (users, Resolved tt).

Definition MockAuthProvider_getCurrentUser (users : Users)
  : Users * Promise (option User) :=
  (* Return first user for mock *)
  (users, Resolved (firstValue users)).

Definition MockAuthProvider_resetPassword (users : Users) (email : string)
  : Users * Promise unit :=
  (users, Resolved tt).

Definition MockAuthProvider_updateProfile (users : Users) (updates : User)
  : Users * Promise (option User) :=
  (users, Resolved None).

(** *** [NoAuthProvider] *)

Definition NoAuthProvider_signIn : Promise (option User) :=
  Rejected (Error "Authentication is disabled").

Definition NoAuthProvider_signUp : Promise (option User) :=
  Rejected (Error "Authentication is disabled").

Definition NoAuthProvider_signOut : Promise unit :=
  (* No-op *)
  Resolved tt.

Definition NoAuthProvider_getCurrentUser : Promise (option User) :=
  Resolved None.

Definition NoAuthProvider_resetPassword : Promise unit :=
  Rejected (Error "Authentication is disabled").

Definition NoAuthProvider_updateProfile : Promise (option User) :=
  Rejected (Error "Authentication is disabled").

(** Calling an operation of [NoAuthProvider] and awaiting it. *)
Definition NoAuthProvider_invoke (op : AuthOp) : Settled :=
  match op with
  | signIn => settle NoAuthProvider_signIn
  | signUp => settle NoAuthProvider_signUp
  | signOut => settle NoAuthProvider_signOut
  | getCurrentUser => settle NoAuthProvider_getCurrentUser
  | resetPassword => settle NoAuthProvider_resetPassword
  | updateProfile => settle NoAuthProvider_updateProfile
  end.

(** *** Factory *)

Definition isDevelopment (env : Env) : bool :=
  strictEq (env !! "NODE_ENV") "development".

Definition getAuthProvider (env : Env) : Completion AuthProvider :=
  if negb (isFeatureEnabled (config env) Authentication) then
    Normal NoAuthProvider
  else if isProviderEnabled (config env) Supabase then
    Normal SupabaseAuthProvider
  else if isProviderEnabled (config env) Auth0 then
    Normal Auth0Provider
  else if isDevelopment env then
    Normal MockAuthProvider
  else
    Normal NoAuthProvider.

(** *** The session states of the specification, read off the mock *)

Inductive AuthState : Type := Unauthenticated | Authenticated.

(** The state a caller observes through [getCurrentUser]. *)
Definition observedState (users : Users) : AuthState :=
  match snd (MockAuthProvider_getCurrentUser users) with
  | Resolved (Some _) => Authenticated
  | _ => Unauthenticated
  end.

(** *** [Auth0Provider] *)

(** [private auth0: any]: the constructor loads the Auth0 module only
    when the provider is enabled; [true] when it is loaded. *)
Definition Auth0Provider_new (cfg : XionConfig) : bool :=
  if isProviderEnabled cfg Auth0 then true else false.

Definition Auth0Provider_signIn (auth0 : bool) (email password : string)
  : Promise (option User) :=
  Rejected (Error "Auth0 sign-in handled through hosted login page").

Definition Auth0Provider_signUp (auth0 : bool) (email password : string)
  (name : option string) : Promise (option User) :=
  Rejected (Error "Auth0 sign-up handled through hosted login page").

Definition Auth0Provider_signOut (auth0 : bool) : Promise unit :=
  if negb auth0 then Resolved tt else Resolved tt.

Definition Auth0Provider_getCurrentUser (auth0 : bool) : Promise (option User) :=
  if negb auth0 then Resolved None else Resolved None.

Definition Auth0Provider_resetPassword (auth0 : bool) (email : string)
  : Promise unit :=
  if negb auth0 then Resolved tt else Resolved tt.

Definition Auth0Provider_updateProfile (auth0 : bool) (updates : User)
  : Promise (option User) :=
  if negb auth0 then Resolved None else Resolved None.

(** *** The later revision of the factory, without Auth0 *)

Definition getAuthProvider_withoutAuth0 (env : Env) : Completion AuthProvider :=
  if negb (isFeatureEnabled (config env) Authentication) then
    Normal NoAuthProvider
  else if isProviderEnabled (config env) Supabase then
    Normal SupabaseAuthProvider
  else if isDevelopment env then
    Normal MockAuthProvider
  else
    Normal NoAuthProvider.

(** *** [useAuth] *)

(** The operations of the [AuthProvider] interface over a provider
    whose private state has type [S]. *)
Record AuthProviderImpl (S : Type) : Type := {
  impl_signIn : S -> string -> string -> S * Promise (option User);
  impl_signUp : S -> string -> string -> option string
                -> S * Promise (option User);
  impl_signOut : S -> S * Promise unit;
  impl_getCurrentUser : S -> S * Promise (option User);
  impl_resetPassword : S -> string -> S * Promise unit;
  impl_updateProfile : S -> User -> S * Promise (option User)
}.
Arguments impl_signIn {S} _.
Arguments impl_signUp {S} _.
Arguments impl_signOut {S} _.
Arguments impl_getCurrentUser {S} _.
Arguments impl_resetPassword {S} _.
Arguments impl_updateProfile {S} _.

(** [MockAuthProvider] as an implementation; [now] is what [Date.now()]
    reads. *)
Definition mockAuthImpl (now : N) : AuthProviderImpl Users := {|
  impl_signIn := MockAuthProvider_signIn;
  impl_signUp := MockAuthProvider_signUp now;
  impl_signOut := MockAuthProvider_signOut;
  impl_getCurrentUser := MockAuthProvider_getCurrentUser;
  impl_resetPassword := MockAuthProvider_resetPassword;
  impl_updateProfile := MockAuthProvider_updateProfile |}.

(** [NoAuthProvider] as an implementation; it has no state. *)
Definition noAuthImpl : AuthProviderImpl unit := {|
  impl_signIn := fun s _ _ => (s, NoAuthProvider_signIn);
  impl_signUp := fun s _ _ _ => (s, NoAuthProvider_signUp);
  impl_signOut := fun s => (s, NoAuthProvider_signOut);
  impl_getCurrentUser := fun s => (s, NoAuthProvider_getCurrentUser);
  impl_resetPassword := fun s _ => (s, NoAuthProvider_resetPassword);
  impl_updateProfile := fun s _ => (s, NoAuthProvider_updateProfile) |}.

(** [Auth0Provider] as an implementation; its state is whether the
    module is loaded. *)
Definition auth0Impl : AuthProviderImpl bool := {|
  impl_signIn := fun s e p => (s, Auth0Provider_signIn s e p);
  impl_signUp := fun s e p n => (s, Auth0Provider_signUp s e p n);
  impl_signOut := fun s => (s, Auth0Provider_signOut s);
  impl_getCurrentUser := fun s => (s, Auth0Provider_getCurrentUser s);
  impl_resetPassword := fun s e => (s, Auth0Provider_resetPassword s e);
  impl_updateProfile := fun s u => (s, Auth0Provider_updateProfile s u) |}.

(** The two [useState] cells of the hook. *)
Record HookState : Type := {
  hook_user : option User;
  hook_loading : bool
}.

(** [useState<User | null>(null)], [useState(true)] *)
Definition initialHook : HookState :=
  {| hook_user := None; hook_loading := true |}.

Definition setUser (h : HookState) (user : option User) : HookState :=
  {| hook_user := user; hook_loading := hook_loading h |}.

Definition setLoading (h : HookState) (loading : bool) : HookState :=
  {| hook_user := hook_user h; hook_loading := loading |}.

(** [isAuthenticated: !!user] *)
Definition isAuthenticated (h : HookState) : bool :=
  match hook_user h with
  | Some _ => true
  | None => false
  end.

Section UseAuth.
Context {S : Type} (auth : AuthProviderImpl S).

(** The effect run on mount. A rejection of [getCurrentUser] has no
    handler: the cells stay as they are. *)
Definition useAuth_mount (cfg : XionConfig) (p : S) (h : HookState)
  : S * HookState :=
  if negb (isFeatureEnabled cfg Authentication) then
    (p, setLoading h false)
  else
    let '(p, res) := impl_getCurrentUser auth p in
    match res with
    | Resolved user => (p, setLoading (setUser h user) false)
    | Rejected _ => (p, h)
    end.

Definition useAuth_signIn (p : S) (h : HookState) (email password : string)
  : S * HookState * Promise (option User) :=
  let '(p, res) := impl_signIn auth p email password in
  match res with
  | Resolved user => (p, setUser h user, Resolved user)
  | Rejected e => (p, h, Rejected e)
  end.

Definition useAuth_signUp (p : S) (h : HookState) (email password : string)
  (name : option string) : S * HookState * Promise (option User) :=
  let '(p, res) := impl_signUp auth p email password name in
  match res with
  | Resolved user => (p, setUser h user, Resolved user)
  | Rejected e => (p, h, Rejected e)
  end.

Definition useAuth_signOut (p : S) (h : HookState)
  : S * HookState * Promise unit :=
  let '(p, res) := impl_signOut auth p in
  match res with
  | Resolved _ => (p, setUser h None, Resolved tt)
  | Rejected e => (p, h, Rejected e)
  end.

Definition useAuth_updateProfile (p : S) (h : HookState) (updates : User)
  : S * HookState * Promise (option User) :=
  let '(p, res) := impl_updateProfile auth p updates in
  match res with
  | Resolved user => (p, setUser h user, Resolved user)
  | Rejected e => (p, h, Rejected e)
  end.

End UseAuth.

End Auth.

(* ===================================================================== *)
(** ** [src/lib/database.ts]                                             *)
(* ===================================================================== *)

Module Database.

(** The values JSON can carry. Numbers are the integer-valued ones. *)
Inductive Json : Type :=
| JNull
| JBool (b : bool)
| JNum (n : Z)
| JStr (s : string)
| JArr (items : list Json)
| JObj (fields : list (string * Json)).

(** A record, [Record<string, any>]: its own properties in insertion
    order. Deep equality of two records does not depend on that order;
    equal property lists are deep-equal records. *)
Abbreviation Row := (list (string * Json)).

(** [item[key]]; [None] is [undefined]. *)
Fixpoint objGet (item : Row) (key : string) : option Json :=
  match item with
  | [] => None
  | (k, v) :: rest => if String.eqb k key then Some v else objGet rest key
  end.

(** Defining property [key] in an object under construction: an
    existing property keeps its position and takes the new value. *)
Fixpoint objSet (item : Row) (key : string) (value : Json) : Row :=
  match item with
  | [] => [(key, value)]
  | (k, v) :: rest =>
      if String.eqb k key then (key, value) :: rest
      else (k, v) :: objSet rest key value
  end.

(** [{ ...item, ...data }] *)
Definition spread (item data : Row) : Row :=
  fold_left (fun acc entry => objSet acc (fst entry) (snd entry)) data item.

(** [a === b] on parsed values: primitives compare by value, arrays
    and objects are distinct references. *)
Definition strictEqJson (a b : Json) : bool :=
  match a, b with
  | JNull, JNull => true
  | JBool x, JBool y => Bool.eqb x y
  | JNum x, JNum y => Z.eqb x y
  | JStr x, JStr y => String.eqb x y
  | _, _ => false
  end.

(** [item.id === id] for a string [id]. *)
Definition idIs (id : string) (item : Row) : bool :=
  match objGet item "id" with
  | Some v => strictEqJson v (JStr id)
  | None => false
  end.

(** The text [JSON.stringify] produces for a table, represented by the
    array it denotes: [JSON.parse (JSON.stringify d)] is [d] for arrays
    of JSON records, and the text of an array is never empty. *)
Record JsonText : Type := { parsed : list Row }.

Definition JSON_stringify (data : list Row) : JsonText := {| parsed := data |}.
Definition JSON_parse (text : JsonText) : list Row := parsed text.

(** [private storage: Storage]: the browser's [localStorage], or the
    object literal the constructor substitutes when there is no
    [window], whose [getItem] answers [null] and whose [setItem] does
    nothing. *)
Inductive Storage : Type :=
| LocalStorage (items : gmap string JsonText)
| StubStorage.

Definition getItem (storage : Storage) (key : string) : option JsonText :=
  match storage with
  | LocalStorage items => items !! key
  | StubStorage => None
  end.

Definition setItem (storage : Storage) (key : string) (value : JsonText)
  : Storage :=
  match storage with
  | LocalStorage items => LocalStorage (<[key := value]> items)
  | StubStorage => StubStorage
  end.

(** The constructor; [window] is [Some items] in a browser whose
    [localStorage] holds [items], [None] elsewhere. *)
Definition newLocalStorageDatabaseProvider
  (window : option (gmap string JsonText)) : Storage :=
  match window with
  | Some items => LocalStorage items
  | None => StubStorage
  end.

Definition tableKey (table : string) : string := "db_" +:+ table.

Definition getTableData (storage : Storage) (table : string) : list Row :=
  match getItem storage (tableKey table) with
  | Some data => JSON_parse data
  | None => []
  end.

Definition setTableData (storage : Storage) (table : string) (data : list Row)
  : Storage :=
  setItem storage (tableKey table) (JSON_stringify data).

(** The readings of the clock and of the random generator one call to
    [insert] or [update] makes. *)
Record Readings : Type := {
  dateNow : N;
  randomSuffix : string;
  createdAt : string;
  updatedAt : string
}.

Definition localId (r : Readings) : string :=
  "local_" +:+ Auth.numberToString (dateNow r) +:+ "_" +:+ randomSuffix r.

Definition LocalStorage_query (storage : Storage) (sql : string)
  : Storage * Promise (list Row) :=
  (storage, Resolved []).

Definition LocalStorage_insert (r : Readings) (storage : Storage)
  (table : string) (data : Row) : Storage * Promise Row :=
  let tableData := getTableData storage table in
  let newItem :=
    objSet (objSet (spread [("id", JStr (localId r))] data)
                   "created_at" (JStr (createdAt r)))
           "updated_at" (JStr (updatedAt r)) in
  let tableData := tableData ++ [newItem] in
  let storage := setTableData storage table tableData in
  (storage, Resolved newItem).

(** [tableData.findIndex(item => item.id === id)]; [None] is [-1]. *)
Fixpoint findIndex (id : string) (tableData : list Row) : option nat :=
  match tableData with
  | [] => None
  | item :: rest =>
      if idIs id item then Some 0 else option_map S (findIndex id rest)
  end.

Definition LocalStorage_update (r : Readings) (storage : Storage)
  (table id : string) (data : Row) : Storage * Promise Row :=
  let tableData := getTableData storage table in
  match findIndex id tableData with
  | None => (storage, Rejected (Error ("Record with id " +:+ id +:+ " not found")))
  | Some index =>
      let updated :=
        objSet (spread (nth index tableData []) data)
               "updated_at" (JStr (updatedAt r)) in
      let tableData := <[index := updated]> tableData in
      let storage := setTableData storage table tableData in
      (storage, Resolved updated)
  end.

Definition LocalStorage_delete (storage : Storage) (table id : string)
  : Storage * Promise unit :=
  let tableData := getTableData storage table in
  let filteredData := List.filter (fun item => negb (idIs id item)) tableData in
  let storage := setTableData storage table filteredData in
  (storage, Resolved tt).

(** [tableData.find(item => item.id === id) || null] *)
Definition LocalStorage_findById (storage : Storage) (table id : string)
  : Storage * Promise (option Row) :=
  let tableData := getTableData storage table in
  (storage, Resolved (find (idIs id) tableData)).

(** The [filters] argument, [Record<string, any>]: a value given by the
    caller, or [undefined] ([None]). *)
Abbreviation Filters := (list (string * option Json)).

(** [item[key] === value]: a stored property against a filter value.
    A property the record lacks reads as [undefined], which is strictly
    equal to an [undefined] filter value and to nothing else. *)
Definition propertyIs (item : Row) (key : string) (value : option Json) : bool :=
  match objGet item key, value with
  | Some stored, Some wanted => strictEqJson stored wanted
  | None, None => true
  | _, _ => false
  end.

(** [Object.entries(filters).every(([key, value]) => item[key] === value)] *)
Definition matchesFilters (filters : Filters) (item : Row) : bool :=
  forallb (fun entry => propertyIs item (fst entry) (snd entry)) filters.

Definition LocalStorage_findMany (storage : Storage) (table : string)
  (filters : option Filters) : Storage * Promise (list Row) :=
  let tableData := getTableData storage table in
  let tableData :=
    match filters with
    | Some filters => List.filter (matchesFilters filters) tableData
    | None => tableData
    end in
  (storage, Resolved tableData).

(** *** [NoDatabaseProvider] *)

Inductive DatabaseOp : Type :=
| query | insert | update | delete | findById | findMany.

Definition databaseOps : list DatabaseOp :=
  [query; insert; update; delete; findById; findMany].

Definition NoDatabaseProvider_query : Promise (list Row) :=
  Rejected (Error "Database is disabled").
Definition NoDatabaseProvider_insert : Promise Row :=
  Rejected (Error "Database is disabled").
Definition NoDatabaseProvider_update : Promise Row :=
  Rejected (Error "Database is disabled").
Definition NoDatabaseProvider_delete : Promise unit :=
  Rejected (Error "Database is disabled").
Definition NoDatabaseProvider_findById : Promise (option Row) :=
  Rejected (Error "Database is disabled").
Definition NoDatabaseProvider_findMany : Promise (list Row) :=
  Rejected (Error "Database is disabled").

Definition NoDatabaseProvider_invoke (op : DatabaseOp) : Settled :=
  match op with
  | query => settle NoDatabaseProvider_query
  | insert => settle NoDatabaseProvider_insert
  | update => settle NoDatabaseProvider_update
  | delete => settle NoDatabaseProvider_delete
  | findById => settle NoDatabaseProvider_findById
  | findMany => settle NoDatabaseProvider_findMany
  end.

(** *** Factory *)

(** The classes implementing [DatabaseProvider]. *)
Inductive DatabaseProvider : Type :=
| SupabaseDatabaseProvider
| LocalStorageDatabaseProvider
| NoDatabaseProvider.

(** What a call wrote with [console.warn], and how it completed. *)
Record Run (A : Type) : Type := {
  warnings : list string;
  completion : Completion A
}.
Arguments warnings {A} _.
Arguments completion {A} _.

Definition getDatabaseProvider (env : Env) : Run DatabaseProvider :=
  if negb (isFeatureEnabled (config env) Database) then
    {| warnings := []; completion := Normal NoDatabaseProvider |}
  else if isProviderEnabled (config env) Supabase then
    {| warnings := []; completion := Normal SupabaseDatabaseProvider |}
  else if Auth.isDevelopment env then
    {| warnings := ["Supabase not configured, using local storage fallback"];
       completion := Normal LocalStorageDatabaseProvider |}
  else
    {| warnings := [];
       completion := Throw (Error "Supabase is required for database functionality") |}.

End Database.

(* ===================================================================== *)
(** ** The payments module                                               *)
(* ===================================================================== *)

Module Payments.

Inductive SessionStatus : Type := open | complete | expired.

Record CheckoutSession : Type := {
  session_id : string;
  session_url : string;
  session_status : SessionStatus
}.

Inductive SubscriptionStatus : Type := active | canceled | incomplete | past_due.

Record Subscription : Type := {
  subscription_id : string;
  subscription_status : SubscriptionStatus;
  currentPeriodStart : string;
  currentPeriodEnd : string;
  cancelAtPeriodEnd : bool
}.

Record Customer : Type := {
  customer_id : string;
  customer_email : string;
  customer_name : option string;
  created : string
}.

Record Card : Type := {
  brand : string;
  last4 : string;
  expMonth : Z;
  expYear : Z
}.

Inductive PaymentMethodType : Type := card_type | bank_account.

Record PaymentMethod : Type := {
  method_id : string;
  method_type : PaymentMethodType;
  card : option Card
}.

Inductive PaymentOp : Type :=
| createCheckoutSession | createSubscription | cancelSubscription
| getCustomer | createCustomer | getPaymentMethods.

Definition paymentOps : list PaymentOp :=
  [createCheckoutSession; createSubscription; cancelSubscription;
   getCustomer; createCustomer; getPaymentMethods].

Definition NoPaymentProvider_createCheckoutSession : Promise CheckoutSession :=
  Rejected (Error "Payments are disabled").
Definition NoPaymentProvider_createSubscription : Promise Subscription :=
  Rejected (Error "Payments are disabled").
Definition NoPaymentProvider_cancelSubscription : Promise unit :=
  Rejected (Error "Payments are disabled").
Definition NoPaymentProvider_getCustomer : Promise (option Customer) :=
  Rejected (Error "Payments are disabled").
Definition NoPaymentProvider_createCustomer : Promise Customer :=
  Rejected (Error "Payments are disabled").
Definition NoPaymentProvider_getPaymentMethods : Promise (list PaymentMethod) :=
  Rejected (Error "Payments are disabled").

Definition NoPaymentProvider_invoke (op : PaymentOp) : Settled :=
  match op with
  | createCheckoutSession => settle NoPaymentProvider_createCheckoutSession
  | createSubscription => settle NoPaymentProvider_createSubscription
  | cancelSubscription => settle NoPaymentProvider_cancelSubscription
  | getCustomer => settle NoPaymentProvider_getCustomer
  | createCustomer => settle NoPaymentProvider_createCustomer
  | getPaymentMethods => settle NoPaymentProvider_getPaymentMethods
  end.

(** The classes implementing [PaymentProvider]. *)
Inductive PaymentProvider : Type :=
| StripePaymentProvider
| MockPaymentProvider
| NoPaymentProvider.

Definition getPaymentProvider (env : Env) : Completion PaymentProvider :=
  if negb (isFeatureEnabled (config env) Payments) then
    Normal NoPaymentProvider
  else if isProviderEnabled (config env) Stripe then
    Normal StripePaymentProvider
  else if Auth.isDevelopment env then
    Normal MockPaymentProvider
  else
    Normal NoPaymentProvider.

End Payments.

(* ===================================================================== *)
(** ** [src/components/layout/Breadcrumbs.tsx]                           *)
(* ===================================================================== *)

Module Breadcrumbs.

Record BreadcrumbItem : Type := {
  label : string;
  href : option string
}.

(** [c.toUpperCase()] on an ASCII character; path segments are ASCII
    (other characters arrive percent-encoded). *)
Definition toUpperChar (c : ascii) : ascii :=
  let n := nat_of_ascii c in
  if Nat.leb 97 n && Nat.leb n 122 then ascii_of_nat (n - 32) else c.

(** [word.charAt(0).toUpperCase() + word.slice(1)] *)
Definition capitalize (word : string) : string :=
  match word with
  | EmptyString => EmptyString
  | String c rest => String (toUpperChar c) rest
  end.

(** [parts.join(sep)] *)
Fixpoint join (sep : string) (parts : list string) : string :=
  match parts with
  | [] => EmptyString
  | [part] => part
  | part :: rest => part +:+ sep +:+ join sep rest
  end.

Definition formatSegment (segment : string) : string :=
  join " " (map capitalize (split "-"%char segment)).

(** [Boolean] as the predicate of [filter] on strings. *)
Definition nonEmpty (s : string) : bool := negb (String.eqb s EmptyString).

(** The [forEach] over the segments: [index] counts the segments seen,
    [total] is [segments.length], [currentPath] and [breadcrumbs] are
    the two variables the callback updates. *)
Fixpoint pushSegments (segments : list string) (index total : nat)
  (currentPath : string) (breadcrumbs : list BreadcrumbItem)
  : list BreadcrumbItem :=
  match segments with
  | [] => breadcrumbs
  | segment :: rest =>
      let currentPath := currentPath +:+ "/" +:+ segment in
      let isLast := Nat.eqb index (total - 1) in
      pushSegments rest (S index) total currentPath
        (breadcrumbs ++
           [{| label := formatSegment segment;
               href := if isLast then None else Some currentPath |}])
  end.

Definition generateBreadcrumbs (pathname : string) : list BreadcrumbItem :=
  let segments := List.filter nonEmpty (split "/"%char pathname) in
  let breadcrumbs := [{| label := "Home"; href := Some "/" |}] in
  pushSegments segments 0 (length segments) EmptyString breadcrumbs.

(** [items || generateBreadcrumbs(pathname)]: an array, even an empty
    one, is truthy. *)
Definition breadcrumbItems (items : option (list BreadcrumbItem))
  (pathname : string) : list BreadcrumbItem :=
  match items with
  | Some items => items
  | None => generateBreadcrumbs pathname
  end.

(** The component returns [null]. *)
Definition rendersNothing (items : option (list BreadcrumbItem))
  (pathname : string) : bool :=
  Nat.leb (length (breadcrumbItems items pathname)) 1.

(** [item.href && index < breadcrumbItems.length - 1]: the item is
    rendered as a link. *)
Definition isLink (item : BreadcrumbItem) (index total : nat) : bool :=
  truthy (href item) && Nat.ltb index (total - 1).

End Breadcrumbs.

(* ===================================================================== *)
(** ** [src/components/layout/Sidebar.tsx]                               *)
(* ===================================================================== *)

Module Sidebar.

Record SidebarItem : Type := {
  name : string;
  href : string;
  badge : option string
}.

Definition sidebarItems : list SidebarItem :=
  [ {| name := "Dashboard"; href := "/dashboard"; badge := None |};
    {| name := "Users"; href := "/users"; badge := None |};
    {| name := "Products"; href := "/products"; badge := None |};
    {| name := "Analytics"; href := "/analytics"; badge := Some "New" |};
    {| name := "Reports"; href := "/reports"; badge := None |};
    {| name := "Billing"; href := "/billing"; badge := None |};
    {| name := "Notifications"; href := "/notifications"; badge := Some "3" |};
    {| name := "Profile"; href := "/profile"; badge := None |};
    {| name := "Settings"; href := "/settings"; badge := None |} ].

(** [isActive], with the [pathname] it closes over as a parameter. *)
Definition isActive (pathname : string) (href : string) : bool :=
  if String.eqb href "/dashboard" then String.eqb pathname "/dashboard"
  else String.prefix href pathname.

End Sidebar.

(* ===================================================================== *)
(** ** The vocabulary of the specification                               *)
(* ===================================================================== *)

Module Spec.

Definition lowerChar (c : ascii) : ascii :=
  let n := nat_of_ascii c in
  if Nat.leb 65 n && Nat.leb n 90 then ascii_of_nat (n + 32) else c.

Fixpoint toLowerCase (s : string) : string :=
  match s with
  | EmptyString => EmptyString
  | String c rest => String (lowerChar c) (toLowerCase rest)
  end.

(** [sub] occurs in [s]. *)
Fixpoint includes (sub s : string) : bool :=
  String.prefix sub s ||
  match s with
  | EmptyString => false
  | String _ rest => includes sub rest
  end.

(** A message mentions a name: the name occurs in it, letter case
    aside. *)
Definition mentions (name message : string) : bool :=
  includes (toLowerCase name) (toLowerCase message).

(** A variable is present and non-empty in the environment. *)
Definition present (env : Env) (variable : string) : Prop :=
  exists s, env !! variable = Some s /\ s <> EmptyString.

(** The variables the [enabled] flag of each provider reads. *)
Definition requiredVariables (p : Provider) : list string :=
  match p with
  | Supabase => ["NEXT_PUBLIC_SUPABASE_URL"; "NEXT_PUBLIC_SUPABASE_ANON_KEY"]
  | Stripe => ["NEXT_PUBLIC_STRIPE_PUBLISHABLE_KEY"; "STRIPE_SECRET_KEY"]
  | Auth0 => ["AUTH0_DOMAIN"; "AUTH0_CLIENT_ID"]
  | Sendgrid => ["SENDGRID_API_KEY"]
  | Aws => ["AWS_ACCESS_KEY_ID"; "AWS_SECRET_ACCESS_KEY"]
  end.

(** The credential fields the specification lists for each provider,
    by the variable each is read from. *)
Definition listedVariables (p : Provider) : list string :=
  match p with
  | Supabase => ["NEXT_PUBLIC_SUPABASE_URL"; "NEXT_PUBLIC_SUPABASE_ANON_KEY"]
  | Stripe => ["NEXT_PUBLIC_STRIPE_PUBLISHABLE_KEY"; "STRIPE_SECRET_KEY";
               "STRIPE_WEBHOOK_SECRET"]
  | Auth0 => ["AUTH0_DOMAIN"; "AUTH0_CLIENT_ID"; "AUTH0_CLIENT_SECRET"]
  | Sendgrid => ["SENDGRID_API_KEY"]
  | Aws => ["AWS_ACCESS_KEY_ID"; "AWS_SECRET_ACCESS_KEY"; "AWS_REGION"]
  end.

(** An operation ended in a "capability disabled" error: its promise
    was rejected with an error whose message says so. *)
Definition capabilityDisabled (s : Settled) : bool :=
  match s with
  | Fulfilled => false
  | RejectedWith e => includes "disabled" (errorMessage e)
  end.

(** One rule of [validate()]: whether the configuration violates it and
    the entry reported when it does. *)
Record Rule : Type := {
  violated : bool;
  message : string
}.

Definition requiredRule (cfg : XionConfig) (f : Feature) : Rule := {|
  violated := truthyBool (required (featureAt cfg f))
              && negb (isFeatureEnabled cfg f);
  message := requiredFeatureMessage (featureKey f) |}.

Definition dependencyRule (cfg : XionConfig) (f : Feature) (p : Provider)
  (msg : string) : Rule := {|
  violated := isFeatureEnabled cfg f && negb (isProviderEnabled cfg p);
  message := msg |}.

(** The rules in the order the specification lists them. *)
Definition rules (cfg : XionConfig) : list Rule :=
  map (requiredRule cfg) allFeatures ++
  [dependencyRule cfg Database Supabase databaseMessage;
   dependencyRule cfg Payments Stripe paymentsMessage;
   dependencyRule cfg Email Sendgrid emailMessage].

(** One entry per violated rule. *)
Definition expectedErrors (cfg : XionConfig) : list string :=
  map message (List.filter violated (rules cfg)).

(** The same configuration with the Stripe provider enabled. *)
Definition withStripeEnabled (cfg : XionConfig) : XionConfig :=
  let st := stripe (providers cfg) in
  let base := stripe_base st in
  {| features := features cfg;
     providers := {|
       supabase := supabase (providers cfg);
       stripe := {|
         stripe_base := {| enabled := true;
                           required := required base;
                           fallback := fallback base |};
         publishableKey := publishableKey st;
         secretKey := secretKey st;
         webhookSecret := webhookSecret st |};
       auth0 := auth0 (providers cfg);
       sendgrid := sendgrid (providers cfg);
       aws := aws (providers cfg) |};
     ui := ui cfg;
     app := app cfg |}.

(** [l] is the part of [s] before its first ['@']. *)
Definition isLocalPart (l s : string) : Prop :=
  includesChar "@"%char l = false /\ exists rest, s = l +:+ String "@"%char rest.

(** The test the loop of [validateConfig] applies to an entry, and the
    entries it pushes. *)
Definition entryViolated (entry : string * FeatureConfig) : bool :=
  truthyBool (required (snd entry)) && negb (enabled (snd entry)).

Definition requiredErrors (cfg : XionConfig) : list string :=
  map (fun entry => requiredFeatureMessage (fst entry))
      (List.filter entryViolated (featureEntries cfg)).

Definition when (b : bool) (msg : string) : list string :=
  if b then [msg] else [].

(** The record [insert] builds. *)
Definition insertedItem (r : Database.Readings) (data : Database.Row)
  : Database.Row :=
  Database.objSet
    (Database.objSet
       (Database.spread [("id", Database.JStr (Database.localId r))] data)
       "created_at" (Database.JStr (Database.createdAt r)))
    "updated_at" (Database.JStr (Database.updatedAt r)).

(** A production environment with the database and authentication
    features switched on and no credentials. *)
Definition productionEnv : Env :=
  <["NODE_ENV" := "production"]>
    (<["NEXT_PUBLIC_ENABLE_DATABASE" := "true"]>
       (<["NEXT_PUBLIC_ENABLE_AUTH" := "true"]> ∅)).

(** [formatSegment] read character by character: a hyphen becomes a
    space, and the character at the start and after each hyphen is put
    in upper case. [capNext] tells whether the next character starts a
    word. *)
Fixpoint formatChars (capNext : bool) (s : string) : string :=
  match s with
  | EmptyString => EmptyString
  | String c rest =>
      if Ascii.eqb c "-"%char then String " "%char (formatChars true rest)
      else String (if capNext then Breadcrumbs.toUpperChar c else c)
                  (formatChars false rest)
  end.

(** The non-empty segments of a pathname. *)
Definition segmentsOf (pathname : string) : list string :=
  List.filter Breadcrumbs.nonEmpty (split "/"%char pathname).

(** The path made of the given segments, each preceded by a slash. *)
Fixpoint pathOf (segments : list string) : string :=
  match segments with
  | [] => EmptyString
  | segment :: rest => "/" +:+ segment +:+ pathOf rest
  end.

Definition homeCrumb : Breadcrumbs.BreadcrumbItem :=
  {| Breadcrumbs.label := "Home"; Breadcrumbs.href := Some "/" |}.

(** The items the loop of [generateBreadcrumbs] pushes for the segments
    still to come. *)
Fixpoint crumbsFrom (segments : list string) (index total : nat)
  (currentPath : string) : list Breadcrumbs.BreadcrumbItem :=
  match segments with
  | [] => []
  | segment :: rest =>
      let currentPath := currentPath +:+ "/" +:+ segment in
      {| Breadcrumbs.label := Breadcrumbs.formatSegment segment;
         Breadcrumbs.href :=
           if Nat.eqb index (total - 1) then None else Some currentPath |}
      :: crumbsFrom rest (S index) total currentPath
  end.

End Spec.
Import Spec.

(* ===================================================================== *)
(** ** Configuration registry and capability predicates                  *)
(* ===================================================================== *)

Lemma truthy_present (env : Env) (v : string) :
  truthy (env !! v) = true <-> present env v.
Proof.
  unfold truthy, present. destruct (env !! v) as [s|].
  - rewrite negb_true_iff. split.
    + intros H. exists s. split; [done|]. by apply String.eqb_neq.
    + intros (s' & [= <-] & Hne). by apply String.eqb_neq.
  - split; [done|]. by intros (s & ? & _).
Qed.

Lemma strictEq_true (v : option string) (lit : string) :
  strictEq v lit = true <-> v = Some lit.
Proof.
  destruct v as [s|]; cbn; [|done].
  rewrite String.eqb_eq. split; congruence.
Qed.

(** C3: for every feature and every environment, [isFeatureEnabled] is
    true exactly when the feature's [NEXT_PUBLIC_ENABLE_*] variable is
    the string ["true"]; hence "TRUE", "1" and an unset variable give
    false. *)
Theorem isFeatureEnabled_iff_true (env : Env) (f : Feature) :
  (isFeatureEnabled (config env) f = true
   <-> env !! featureVariable f = Some "true")
  /\ (env !! featureVariable f = Some "TRUE"
      \/ env !! featureVariable f = Some "1"
      \/ env !! featureVariable f = None
      -> isFeatureEnabled (config env) f = false).
Proof.
  assert (Hiff : isFeatureEnabled (config env) f = true
                 <-> env !! featureVariable f = Some "true").
  { unfold isFeatureEnabled. destruct f; cbn; apply strictEq_true. }
  split; [exact Hiff|].
  intros H. apply not_true_is_false. rewrite Hiff.
  destruct H as [H|[H|H]]; rewrite H; discriminate.
Qed.

Lemma isFeatureEnabled_iff_true_witness :
  isFeatureEnabled
    (config (<["NEXT_PUBLIC_ENABLE_PAYMENTS" := "TRUE"]> ∅)) Payments = false.
Proof.
  apply (proj2 (isFeatureEnabled_iff_true
                  (<["NEXT_PUBLIC_ENABLE_PAYMENTS" := "TRUE"]> ∅) Payments)).
  left. reflexivity.
Defined.

Lemma truthy_delete_eq (env : Env) (v : string) :
  truthy (delete v env !! v) = false.
Proof. by rewrite lookup_delete_eq. Qed.

Lemma truthy_delete_ne (env : Env) (v w : string) :
  v <> w -> truthy (delete v env !! w) = truthy (env !! w).
Proof. intros H. by rewrite lookup_delete_ne. Qed.

(** C4, as the code has it: a provider is enabled exactly when the
    variables its [enabled] flag reads are all present and non-empty
    (URL and anonymous key; publishable and secret key; domain and
    client id; API key; access key id and secret access key). Removing
    one of those disables the provider; removing any other variable,
    the webhook secret, the client secret and the region among them,
    leaves the answer as it was. *)
Theorem isProviderEnabled_iff_required (env : Env) (p : Provider) :
  (isProviderEnabled (config env) p = true
   <-> Forall (present env) (requiredVariables p))
  /\ (forall v, In v (requiredVariables p) ->
        isProviderEnabled (config (delete v env)) p = false)
  /\ (forall v, ~ In v (requiredVariables p) ->
        isProviderEnabled (config (delete v env)) p
        = isProviderEnabled (config env) p).
Proof.
  split; [|split].
  - unfold isProviderEnabled.
    destruct p; cbn; rewrite ?andb_true_iff, !truthy_present;
      rewrite ?Forall_cons, Forall_nil; tauto.
  - intros v Hin. unfold isProviderEnabled.
    destruct p; cbn in Hin |- *; intuition subst;
      rewrite truthy_delete_eq; by rewrite ?andb_false_r.
  - intros v Hnin. unfold isProviderEnabled.
    destruct p; cbn in Hnin |- *;
      rewrite !truthy_delete_ne; try done; intros ->; tauto.
Qed.

Lemma isProviderEnabled_iff_required_witness :
  isProviderEnabled
    (config (delete "STRIPE_SECRET_KEY"
               (<["NEXT_PUBLIC_STRIPE_PUBLISHABLE_KEY" := "pk_test"]>
                  (<["STRIPE_SECRET_KEY" := "sk_test"]> ∅)))) Stripe = false.
Proof.
  apply (proj1 (proj2 (isProviderEnabled_iff_required
    (<["NEXT_PUBLIC_STRIPE_PUBLISHABLE_KEY" := "pk_test"]>
       (<["STRIPE_SECRET_KEY" := "sk_test"]> ∅)) Stripe))).
  cbn. right. left. reflexivity.
Defined.

(** C4, as the specification words it, fails: with the publishable and
    the secret key set, Stripe is enabled whether or not the webhook
    secret is there; likewise Auth0 without the client secret and AWS
    without the region. *)
Lemma isProviderEnabled_ignores_listed_field :
  let stripeEnv : Env :=
    <["NEXT_PUBLIC_STRIPE_PUBLISHABLE_KEY" := "pk_test"]>
      (<["STRIPE_SECRET_KEY" := "sk_test"]>
         (<["STRIPE_WEBHOOK_SECRET" := "whsec"]> ∅)) in
  let auth0Env : Env :=
    <["AUTH0_DOMAIN" := "example.auth0.com"]>
      (<["AUTH0_CLIENT_ID" := "client"]>
         (<["AUTH0_CLIENT_SECRET" := "secret"]> ∅)) in
  let awsEnv : Env :=
    <["AWS_ACCESS_KEY_ID" := "AKIA"]>
      (<["AWS_SECRET_ACCESS_KEY" := "secret"]>
         (<["AWS_REGION" := "eu-west-1"]> ∅)) in
  (In "STRIPE_WEBHOOK_SECRET" (listedVariables Stripe)
   /\ isProviderEnabled (config stripeEnv) Stripe = true
   /\ webhookSecret (stripe (providers
        (config (delete "STRIPE_WEBHOOK_SECRET" stripeEnv)))) = None
   /\ isProviderEnabled
        (config (delete "STRIPE_WEBHOOK_SECRET" stripeEnv)) Stripe = true)
  /\ (In "AUTH0_CLIENT_SECRET" (listedVariables Auth0)
      /\ isProviderEnabled
           (config (delete "AUTH0_CLIENT_SECRET" auth0Env)) Auth0 = true)
  /\ (In "AWS_REGION" (listedVariables Aws)
      /\ isProviderEnabled (config (delete "AWS_REGION" awsEnv)) Aws = true).
Proof. cbn. repeat split; tauto || reflexivity. Qed.

(* ===================================================================== *)
(** ** Provider factories                                                *)
(* ===================================================================== *)

Import Auth Database Payments.

Lemma isDevelopment_false (env : Env) :
  env !! "NODE_ENV" <> Some "development" -> isDevelopment env = false.
Proof.
  intros H. apply not_true_is_false. unfold isDevelopment.
  by rewrite strictEq_true.
Qed.

(** C1: outside development, with the database feature enabled and
    Supabase disabled, [getDatabaseProvider] throws; with the
    authentication feature enabled and neither Supabase nor Auth0
    enabled, [getAuthProvider] returns the [NoAuthProvider] stub and
    throws nothing. *)
Theorem production_database_throws_auth_degrades (env : Env) :
  env !! "NODE_ENV" <> Some "development" ->
  (isFeatureEnabled (config env) Database = true ->
   isProviderEnabled (config env) Supabase = false ->
   completion (getDatabaseProvider env)
   = Throw (Error "Supabase is required for database functionality"))
  /\ (isFeatureEnabled (config env) Authentication = true ->
      isProviderEnabled (config env) Supabase = false ->
      isProviderEnabled (config env) Auth0 = false ->
      getAuthProvider env = Normal NoAuthProvider).
Proof.
  intros Hprod. apply isDevelopment_false in Hprod. split.
  - intros Hf Hp. unfold getDatabaseProvider. by rewrite Hf, Hp, Hprod.
  - intros Hf Hs Ha. unfold getAuthProvider. by rewrite Hf, Hs, Ha, Hprod.
Qed.

Lemma production_database_throws_auth_degrades_witness :
  completion (getDatabaseProvider productionEnv)
  = Throw (Error "Supabase is required for database functionality")
  /\ getAuthProvider productionEnv = Normal NoAuthProvider.
Proof.
  destruct (production_database_throws_auth_degrades productionEnv)
    as [Hdb Hauth].
  - discriminate.
  - split; [apply Hdb | apply Hauth]; reflexivity.
Defined.

(** The mock and the local-storage fallback are reached in development
    only. *)
Lemma development_fallbacks (env : Env) :
  env !! "NODE_ENV" = Some "development" ->
  (isFeatureEnabled (config env) Database = true ->
   isProviderEnabled (config env) Supabase = false ->
   completion (getDatabaseProvider env) = Normal LocalStorageDatabaseProvider)
  /\ (isFeatureEnabled (config env) Authentication = true ->
      isProviderEnabled (config env) Supabase = false ->
      isProviderEnabled (config env) Auth0 = false ->
      getAuthProvider env = Normal MockAuthProvider).
Proof.
  intros Hdev.
  assert (Hd : isDevelopment env = true) by by apply strictEq_true.
  split.
  - intros Hf Hp. unfold getDatabaseProvider. by rewrite Hf, Hp, Hd.
  - intros Hf Hs Ha. unfold getAuthProvider. by rewrite Hf, Hs, Ha, Hd.
Qed.

(** [getAuthProvider] and [getPaymentProvider] never throw. *)
Lemma getAuthProvider_returns (env : Env) :
  exists p, getAuthProvider env = Normal p.
Proof. unfold getAuthProvider. repeat case_match; eauto. Qed.

Lemma getPaymentProvider_returns (env : Env) :
  exists p, getPaymentProvider env = Normal p.
Proof. unfold getPaymentProvider. repeat case_match; eauto. Qed.

(* ===================================================================== *)
(** ** The disabled stubs                                                *)
(* ===================================================================== *)

(** C2, as the code has it: every operation of [NoDatabaseProvider] and
    of [NoPaymentProvider], and [signIn], [signUp], [resetPassword] and
    [updateProfile] of [NoAuthProvider], reject with an [Error] whose
    message says the capability is disabled; [NoAuthProvider.signOut]
    resolves and [NoAuthProvider.getCurrentUser] resolves to [null]. *)
Theorem disabled_stub_operations :
  (forall op : DatabaseOp,
     NoDatabaseProvider_invoke op = RejectedWith (Error "Database is disabled")
     /\ capabilityDisabled (NoDatabaseProvider_invoke op) = true)
  /\ (forall op : PaymentOp,
        NoPaymentProvider_invoke op = RejectedWith (Error "Payments are disabled")
        /\ capabilityDisabled (NoPaymentProvider_invoke op) = true)
  /\ (forall op : AuthOp,
        match op with
        | signOut => NoAuthProvider_invoke op = Fulfilled
        | getCurrentUser => NoAuthProvider_invoke op = Fulfilled
        | _ => NoAuthProvider_invoke op
               = RejectedWith (Error "Authentication is disabled")
               /\ capabilityDisabled (NoAuthProvider_invoke op) = true
        end)
  /\ NoAuthProvider_signOut = Resolved tt
  /\ NoAuthProvider_getCurrentUser = Resolved None.
Proof.
  split; [|split; [|split; [|split]]]; try reflexivity;
    intros op; destruct op; try split; reflexivity.
Qed.

(** C2, as the specification words it, fails on [NoAuthProvider]:
    [signOut] and [getCurrentUser] are operations of the capability set
    and both succeed silently. *)
Lemma NoAuthProvider_silent_success :
  In signOut authOps /\ In getCurrentUser authOps
  /\ NoAuthProvider_invoke signOut = Fulfilled
  /\ capabilityDisabled (NoAuthProvider_invoke signOut) = false
  /\ NoAuthProvider_invoke getCurrentUser = Fulfilled
  /\ capabilityDisabled (NoAuthProvider_invoke getCurrentUser) = false.
Proof. cbn. repeat split; tauto || reflexivity. Qed.

(* ===================================================================== *)
(** ** [validateConfig]                                                  *)
(* ===================================================================== *)

(** The loop over the features appends one message per required and
    disabled feature, in the order of the entries. *)
Lemma checkRequired_loop (l : list (string * FeatureConfig)) (acc : list string) :
  fold_left checkRequired l acc
  = acc ++ map (fun entry => requiredFeatureMessage (fst entry))
               (List.filter entryViolated l).
Proof.
  revert acc. induction l as [|[feature fc] l IH]; intros acc; cbn.
  - by rewrite app_nil_r.
  - rewrite IH. unfold entryViolated. cbn.
    destruct (truthyBool (required fc) && negb (enabled fc)); cbn; [|done].
    unfold push. by rewrite <- app_assoc.
Qed.

(** The errors of [validateConfig], written out. *)
Lemma validateConfig_errors (cfg : XionConfig) :
  errors (validateConfig cfg)
  = requiredErrors cfg
    ++ when (isFeatureEnabled cfg Database && negb (isProviderEnabled cfg Supabase))
            databaseMessage
    ++ when (isFeatureEnabled cfg Payments && negb (isProviderEnabled cfg Stripe))
            paymentsMessage
    ++ when (isFeatureEnabled cfg Email && negb (isProviderEnabled cfg Sendgrid))
            emailMessage.
Proof.
  unfold validateConfig. cbn [errors]. rewrite checkRequired_loop.
  unfold isFeatureEnabled, isProviderEnabled, when, push, requiredErrors.
  cbn [featureAt providerBase app].
  repeat case_match; cbn; rewrite <- ?app_assoc; cbn; by rewrite ?app_nil_r.
Qed.

Lemma requiredErrors_rules (cfg : XionConfig) (l : list Feature) :
  map message (List.filter violated (map (requiredRule cfg) l))
  = map (fun entry => requiredFeatureMessage (fst entry))
        (List.filter entryViolated
                     (map (fun f => (featureKey f, featureAt cfg f)) l)).
Proof.
  induction l as [|f l IH]; [done|]. cbn.
  unfold entryViolated at 1. unfold isFeatureEnabled. cbn.
  destruct (truthyBool (required (featureAt cfg f))
            && negb (enabled (featureAt cfg f))); cbn; by rewrite IH.
Qed.

Lemma expectedErrors_written_out (cfg : XionConfig) :
  expectedErrors cfg
  = requiredErrors cfg
    ++ when (isFeatureEnabled cfg Database && negb (isProviderEnabled cfg Supabase))
            databaseMessage
    ++ when (isFeatureEnabled cfg Payments && negb (isProviderEnabled cfg Stripe))
            paymentsMessage
    ++ when (isFeatureEnabled cfg Email && negb (isProviderEnabled cfg Sendgrid))
            emailMessage.
Proof.
  unfold expectedErrors, rules.
  rewrite List.filter_app, List.map_app, requiredErrors_rules.
  fold (featureEntries cfg). fold (requiredErrors cfg). f_equal.
  cbn. unfold when. by repeat case_match.
Qed.

(** No "required feature" entry is the payments entry. *)
Lemma requiredErrors_keep (l : list (string * FeatureConfig)) :
  List.filter (fun e => negb (String.eqb e paymentsMessage))
              (map (fun entry => requiredFeatureMessage (fst entry)) l)
  = map (fun entry => requiredFeatureMessage (fst entry)) l.
Proof. induction l as [|entry l IH]; [done|]. cbn. by rewrite IH. Qed.

Lemma rule_messages_distinct (cfg : XionConfig) :
  NoDup (map message (rules cfg)).
Proof. cbn. apply (bool_decide_unpack _). by vm_compute. Qed.

(** C5: [validateConfig] returns a record (it cannot throw); its
    errors are one entry per violated rule, in the order of the rules,
    and the entries of distinct rules differ; [valid] holds exactly
    when there is no error; with payments enabled and Stripe disabled
    the payments entry is reported and names both; enabling Stripe
    removes that entry and nothing else. *)
Theorem validateConfig_one_error_per_rule (cfg : XionConfig) :
  errors (validateConfig cfg) = expectedErrors cfg
  /\ NoDup (map message (rules cfg))
  /\ length (errors (validateConfig cfg))
     = length (List.filter violated (rules cfg))
  /\ (valid (validateConfig cfg) = true <-> errors (validateConfig cfg) = [])
  /\ (isFeatureEnabled cfg Payments = true ->
      isProviderEnabled cfg Stripe = false ->
      In paymentsMessage (errors (validateConfig cfg))
      /\ mentions (featureKey Payments) paymentsMessage = true
      /\ mentions (providerKey Stripe) paymentsMessage = true)
  /\ isProviderEnabled (withStripeEnabled cfg) Stripe = true
  /\ errors (validateConfig (withStripeEnabled cfg))
     = List.filter (fun e => negb (String.eqb e paymentsMessage))
                   (errors (validateConfig cfg))
  /\ ~ In paymentsMessage (errors (validateConfig (withStripeEnabled cfg))).
Proof.
  assert (Hexp : errors (validateConfig cfg) = expectedErrors cfg)
    by (by rewrite validateConfig_errors, expectedErrors_written_out).
  assert (Hrm : errors (validateConfig (withStripeEnabled cfg))
     = List.filter (fun e => negb (String.eqb e paymentsMessage))
                   (errors (validateConfig cfg))).
  { rewrite !validateConfig_errors, !List.filter_app.
    unfold requiredErrors at 2. rewrite requiredErrors_keep.
    change (requiredErrors (withStripeEnabled cfg)) with (requiredErrors cfg).
    unfold isFeatureEnabled, isProviderEnabled, when.
    cbn [featureAt providerBase withStripeEnabled features providers
         stripe stripe_base supabase sendgrid enabled].
    rewrite andb_false_r.
    destruct (enabled (database (features cfg))
              && negb (enabled (supabase_base (supabase (providers cfg)))));
      destruct (enabled (payments (features cfg))
                && negb (enabled (stripe_base (stripe (providers cfg)))));
      destruct (enabled (Config.email (features cfg))
                && negb (enabled (sendgrid_base (sendgrid (providers cfg)))));
      reflexivity. }
  split; [exact Hexp|].
  split; [apply rule_messages_distinct|].
  split; [rewrite Hexp; unfold expectedErrors; by rewrite List.length_map|].
  split.
  { change (valid (validateConfig cfg))
      with (Nat.eqb (length (errors (validateConfig cfg))) 0).
    rewrite Nat.eqb_eq. apply List.length_zero_iff_nil. }
  split.
  { intros Hf Hp. split; [|split; reflexivity].
    rewrite validateConfig_errors, Hf, Hp.
    apply List.in_or_app. right. apply List.in_or_app. right.
    apply List.in_or_app. left. by left. }
  split; [reflexivity|].
  split; [exact Hrm|].
  rewrite Hrm. intros Hin. apply List.filter_In in Hin as [_ Hne].
  by rewrite String.eqb_refl in Hne.
Qed.

Lemma validateConfig_one_error_per_rule_witness :
  In paymentsMessage
     (errors (validateConfig
                (config (<["NEXT_PUBLIC_ENABLE_PAYMENTS" := "true"]> ∅))))
  /\ errors (validateConfig
               (withStripeEnabled
                  (config (<["NEXT_PUBLIC_ENABLE_PAYMENTS" := "true"]> ∅))))
     = [].
Proof.
  destruct (validateConfig_one_error_per_rule
              (config (<["NEXT_PUBLIC_ENABLE_PAYMENTS" := "true"]> ∅)))
    as (_ & _ & _ & _ & Hpay & _ & Hrm & _).
  split.
  - apply Hpay; reflexivity.
  - rewrite Hrm. reflexivity.
Defined.

(** A required feature that is disabled is reported, by its key. *)
Example validateConfig_required_feature :
  let cfg := config ∅ in
  let requiredAuth := {|
    features := {|
      authentication := {| enabled := false; required := Some true;
                           fallback := None |};
      database := database (features cfg);
      payments := payments (features cfg);
      realtime := realtime (features cfg);
      analytics := analytics (features cfg);
      Config.email := Config.email (features cfg);
      fileUpload := fileUpload (features cfg);
      notifications := notifications (features cfg) |};
    providers := providers cfg; ui := ui cfg; app := app cfg |} in
  validateConfig requiredAuth
  = {| valid := false;
       errors := ["Required feature 'authentication' is disabled"] |}.
Proof. reflexivity. Qed.

(* ===================================================================== *)
(** ** Names outside the enumerated sets                                 *)
(* ===================================================================== *)

Section UnknownNames.
Context {A : Type}.

Lemma getProperty_undefined (own : list (string * A)) (key : string) :
  ~ In key (map fst own) -> ~ In key ConfigRuntime.objectPrototypeKeys ->
  ConfigRuntime.getProperty own key = ConfigRuntime.Undefined.
Proof.
  intros Hown Hproto. unfold ConfigRuntime.getProperty.
  assert (Hfind : find (fun entry : string * A => String.eqb (fst entry) key) own
                  = None).
  { clear Hproto. induction own as [|[k a] own IH]; [done|]. cbn in Hown |- *.
    destruct (String.eqb_spec k key) as [->|Hne]; [tauto|].
    apply IH. tauto. }
  rewrite Hfind.
  assert (Hin : ConfigRuntime.inKeys key ConfigRuntime.objectPrototypeKeys = false).
  { apply not_true_is_false. unfold ConfigRuntime.inKeys.
    rewrite List.existsb_exists. intros (k & Hk & Heq).
    apply String.eqb_eq in Heq. by subst. }
  by rewrite Hin.
Qed.

(** A call that returns, or that throws a [TypeError], does not fail
    with any other kind of error. *)
Lemma normal_not_failed (kind : string) (a : A) :
  ~ ConfigRuntime.failsWithKind kind (Normal a).
Proof. by intros (e & He & _). Qed.

Lemma typeError_other_kind (kind msg : string) :
  kind <> "TypeError" ->
  ~ ConfigRuntime.failsWithKind (A := A) kind (Throw (TypeError msg)).
Proof. intros Hk (e & [= <-] & Hn). by apply Hk. Qed.

End UnknownNames.

Lemma featureEntries_keys (cfg : XionConfig) :
  map fst (featureEntries cfg) = map featureKey allFeatures.
Proof. reflexivity. Qed.

Lemma providerEntries_keys (cfg : XionConfig) :
  map fst (ConfigRuntime.providerEntries cfg) = map providerKey allProviders.
Proof. reflexivity. Qed.

(** C6, as the code has it: no capability predicate ever fails with an
    "UnknownCapability" error. For a name that is neither one of the
    enumerated keys nor a member of [Object.prototype],
    [isFeatureEnabled], [isProviderEnabled] and [getFeatureFallback]
    throw the [TypeError] of reading a property of [undefined], and
    [getProviderConfig] returns [undefined]. On the enumerated keys the
    four calls return what the typed functions return,
    [getProviderConfig] the whole provider object. On a member of
    [Object.prototype] the member read is [undefined]. Whatever the
    name, a call either returns or throws that [TypeError]. *)
Theorem unknown_name_is_not_rejected (cfg : XionConfig) (name : string) :
  (~ ConfigRuntime.failsWithKind "UnknownCapability"
       (ConfigRuntime.isFeatureEnabled cfg name)
   /\ ~ ConfigRuntime.failsWithKind "UnknownCapability"
          (ConfigRuntime.isProviderEnabled cfg name)
   /\ ~ ConfigRuntime.failsWithKind "UnknownCapability"
          (ConfigRuntime.getFeatureFallback cfg name)
   /\ ~ ConfigRuntime.failsWithKind "UnknownCapability"
          (ConfigRuntime.getProviderConfig cfg name))
  /\ (~ In name (map featureKey allFeatures) ->
      ~ In name ConfigRuntime.objectPrototypeKeys ->
      ConfigRuntime.isFeatureEnabled cfg name
      = Throw (ConfigRuntime.cannotRead "enabled")
      /\ ConfigRuntime.getFeatureFallback cfg name
         = Throw (ConfigRuntime.cannotRead "fallback"))
  /\ (~ In name (map providerKey allProviders) ->
      ~ In name ConfigRuntime.objectPrototypeKeys ->
      ConfigRuntime.isProviderEnabled cfg name
      = Throw (ConfigRuntime.cannotRead "enabled")
      /\ ConfigRuntime.getProviderConfig cfg name
         = Normal ConfigRuntime.Undefined)
  /\ (forall f : Feature,
        ConfigRuntime.isFeatureEnabled cfg (featureKey f)
        = Normal (Some (isFeatureEnabled cfg f))
        /\ ConfigRuntime.getFeatureFallback cfg (featureKey f)
           = Normal (getFeatureFallback cfg f))
  /\ (forall p : Provider,
        ConfigRuntime.isProviderEnabled cfg (providerKey p)
        = Normal (Some (isProviderEnabled cfg p))
        /\ ConfigRuntime.getProviderConfig cfg (providerKey p)
           = Normal (ConfigRuntime.Own
                       (existT p (Config.getProviderConfig cfg p))))
  /\ (In name ConfigRuntime.objectPrototypeKeys ->
      ConfigRuntime.isFeatureEnabled cfg name = Normal None
      /\ ConfigRuntime.getFeatureFallback cfg name = Normal "Feature disabled"
      /\ ConfigRuntime.isProviderEnabled cfg name = Normal None
      /\ ConfigRuntime.getProviderConfig cfg name
         = Normal ConfigRuntime.Inherited)
  /\ ((exists v, ConfigRuntime.isFeatureEnabled cfg name = Normal v)
      \/ ConfigRuntime.isFeatureEnabled cfg name
         = Throw (ConfigRuntime.cannotRead "enabled"))
  /\ ((exists v, ConfigRuntime.isProviderEnabled cfg name = Normal v)
      \/ ConfigRuntime.isProviderEnabled cfg name
         = Throw (ConfigRuntime.cannotRead "enabled"))
  /\ ((exists v, ConfigRuntime.getFeatureFallback cfg name = Normal v)
      \/ ConfigRuntime.getFeatureFallback cfg name
         = Throw (ConfigRuntime.cannotRead "fallback"))
  /\ (exists v, ConfigRuntime.getProviderConfig cfg name = Normal v).
Proof.
  split; [|split; [|split; [|split; [|split; [|split; [|split; [|split; [|split]]]]]]]].
  - unfold ConfigRuntime.isFeatureEnabled, ConfigRuntime.isProviderEnabled,
      ConfigRuntime.getFeatureFallback, ConfigRuntime.getProviderConfig.
    repeat split; repeat case_match;
      (apply normal_not_failed || (apply typeError_other_kind; discriminate)).
  - intros Hown Hproto.
    unfold ConfigRuntime.isFeatureEnabled, ConfigRuntime.getFeatureFallback.
    rewrite getProperty_undefined; [done| |done].
    by rewrite featureEntries_keys.
  - intros Hown Hproto.
    unfold ConfigRuntime.isProviderEnabled, ConfigRuntime.getProviderConfig.
    rewrite getProperty_undefined; [done| |done].
    by rewrite providerEntries_keys.
  - intros f. split; by destruct f.
  - intros p. split; by destruct p.
  - intros Hproto. cbn in Hproto.
    repeat (destruct Hproto as [<-|Hproto]; [by repeat split|]). done.
  - unfold ConfigRuntime.isFeatureEnabled. case_match; eauto.
  - unfold ConfigRuntime.isProviderEnabled. case_match; eauto.
  - unfold ConfigRuntime.getFeatureFallback. case_match; eauto.
  - unfold ConfigRuntime.getProviderConfig. eauto.
Qed.

Lemma unknown_name_is_not_rejected_witness :
  ConfigRuntime.isFeatureEnabled (config ∅) "auth"
  = Throw (TypeError "Cannot read properties of undefined (reading 'enabled')")
  /\ ConfigRuntime.getProviderConfig (config ∅) "paypal"
     = Normal ConfigRuntime.Undefined.
Proof.
  destruct (unknown_name_is_not_rejected (config ∅) "auth")
    as (_ & Hfeature & _).
  destruct (unknown_name_is_not_rejected (config ∅) "paypal")
    as (_ & _ & Hprovider & _).
  split.
  - apply Hfeature; cbn; intuition discriminate.
  - apply Hprovider; cbn; intuition discriminate.
Defined.

(** C6, as the specification words it, fails: "auth" is no feature
    name, and [isFeatureEnabled] on it throws a [TypeError], not an
    "UnknownCapability" error; "paypal" is no provider name, and
    [getProviderConfig] on it returns [undefined] without failing. *)
Lemma unknown_name_no_UnknownCapability :
  (forall f : Feature, featureKey f <> "auth")
  /\ ConfigRuntime.isFeatureEnabled (config ∅) "auth"
     = Throw (TypeError "Cannot read properties of undefined (reading 'enabled')")
  /\ errorName (TypeError "Cannot read properties of undefined (reading 'enabled')")
     <> "UnknownCapability"
  /\ (forall p : Provider, providerKey p <> "paypal")
  /\ ConfigRuntime.getProviderConfig (config ∅) "paypal"
     = Normal ConfigRuntime.Undefined.
Proof.
  split; [by intros []|]. split; [reflexivity|]. split; [discriminate|].
  split; [by intros []|]. reflexivity.
Qed.

(* ===================================================================== *)
(** ** [MockAuthProvider]                                                *)
(* ===================================================================== *)

Lemma first_split (sep : ascii) (s : string) :
  first (split sep s) = Some (splitHead sep s).
Proof.
  induction s as [|c s IH]; [done|]. cbn.
  destruct (Ascii.eqb c sep); [done|].
  destruct (split sep s) as [|seg segs]; [done|].
  cbn in IH |- *. by injection IH as ->.
Qed.

(** When the separator occurs, [splitHead] is the part before its first
    occurrence. *)
Lemma splitHead_before_first (sep : ascii) (s : string) :
  includesChar sep s = true ->
  includesChar sep (splitHead sep s) = false
  /\ exists rest, s = splitHead sep s +:+ String sep rest.
Proof.
  induction s as [|c s IH]; [done|]. cbn.
  destruct (Ascii.eqb_spec c sep) as [->|Hne]; cbn.
  - intros _. split; [done|]. by exists s.
  - intros Hin. destruct (IH Hin) as [Hnot [rest Hrest]]. split.
    + rewrite Hnot. apply orb_false_intro; [|done]. by apply Ascii.eqb_neq.
    + exists rest.
      change (String c s = String c (splitHead sep s +:+ String sep rest)).
      by f_equal.
Qed.

Lemma mapSet_nonempty (users : Users) (key : string) (value : User) :
  exists first, firstValue (mapSet users key value) = Some first.
Proof.
  destruct users as [|[k v] rest]; cbn; [eauto|].
  destruct (String.eqb k key); cbn; eauto.
Qed.

(** C8: on the mock provider, for every email containing '@' and every
    password, [signIn] resolves to a user with that email whose name is
    the part of the email before the first '@'; afterwards the provider
    is in the authenticated state: [getCurrentUser] resolves to a
    user. On a fresh provider that user is the one [signIn] returned. *)
Theorem mock_signIn_succeeds (users : Users) (email password : string) :
  includesChar "@"%char email = true ->
  exists user,
    snd (MockAuthProvider_signIn users email password) = Resolved (Some user)
    /\ Auth.email user = email
    /\ (exists l, name user = Some l /\ isLocalPart l email)
    /\ observedState (fst (MockAuthProvider_signIn users email password))
       = Authenticated
    /\ (exists current,
          snd (MockAuthProvider_getCurrentUser
                 (fst (MockAuthProvider_signIn users email password)))
          = Resolved (Some current))
    /\ snd (MockAuthProvider_getCurrentUser
              (fst (MockAuthProvider_signIn newUsers email password)))
       = Resolved (Some user).
Proof.
  intros Hat. eexists. split; [reflexivity|]. cbn [Auth.email name].
  split; [reflexivity|]. split.
  { exists (splitHead "@"%char email). split; [apply first_split|].
    by apply splitHead_before_first. }
  unfold observedState, MockAuthProvider_getCurrentUser,
    MockAuthProvider_signIn.
  cbn [fst snd].
  destruct (mapSet_nonempty users email
    {| id := "mock-user-1"; Auth.email := email;
       name := first (split "@"%char email); avatar := None;
       role := Some "user"; metadata := None |}) as [current Hc].
  rewrite Hc. split; [done|]. split; [by exists current|]. reflexivity.
Qed.

Lemma mock_signIn_succeeds_witness :
  exists user,
    snd (MockAuthProvider_signIn newUsers "a@b.com" "x") = Resolved (Some user)
    /\ name user = Some "a".
Proof.
  destruct (mock_signIn_succeeds newUsers "a@b.com" "x" eq_refl)
    as (user & Hres & _ & _).
  exists user. split; [exact Hres|].
  cbn in Hres. by injection Hres as <-.
Defined.

(** [signOut] and [getCurrentUser] leave the provider's state as it
    was. *)
Lemma mock_signOut_no_effect (users : Users) :
  MockAuthProvider_signOut users = (users, Resolved tt).
Proof. reflexivity. Qed.

Lemma mock_getCurrentUser_pure_read (users : Users) :
  fst (MockAuthProvider_getCurrentUser users) = users.
Proof. reflexivity. Qed.

(** After [signIn] and [signOut] the mock provider still reports a
    current user, whatever its state was before. *)
Lemma mock_signOut_stays_authenticated (users : Users) (email password : string) :
  let users1 := fst (MockAuthProvider_signIn users email password) in
  let users2 := fst (MockAuthProvider_signOut users1) in
  observedState users2 = Authenticated.
Proof.
  unfold observedState, MockAuthProvider_getCurrentUser,
    MockAuthProvider_signOut, MockAuthProvider_signIn.
  cbn [fst snd].
  destruct (mapSet_nonempty users email
    {| id := "mock-user-1"; Auth.email := email;
       name := first (split "@"%char email); avatar := None;
       role := Some "user"; metadata := None |}) as [current Hc].
  by rewrite Hc.
Qed.

(** C7 on the code: on a fresh mock provider, [signIn("a@b.com", "x")]
    followed by [signOut] leaves [getCurrentUser] resolving to the user
    that signed in, not to [null]. *)
Theorem mock_signOut_keeps_user :
  let users1 := fst (MockAuthProvider_signIn newUsers "a@b.com" "x") in
  let users2 := fst (MockAuthProvider_signOut users1) in
  snd (MockAuthProvider_signOut users1) = Resolved tt
  /\ snd (MockAuthProvider_getCurrentUser users2)
     = Resolved (Some {| id := "mock-user-1"; Auth.email := "a@b.com";
                         name := Some "a"; avatar := None;
                         role := Some "user"; metadata := None |})
  /\ observedState users2 = Authenticated.
Proof. cbn. repeat split; reflexivity. Qed.

(* ===================================================================== *)
(** ** [LocalStorageDatabaseProvider]                                    *)
(* ===================================================================== *)

Lemma tableKey_inj (a b : string) : tableKey a = tableKey b -> a = b.
Proof. unfold tableKey. intros H. by simplify_eq/=. Qed.

(** In a browser, a table reads back as it was written, and writing
    one table leaves the others alone. *)
Lemma getTableData_setTableData (items : gmap string JsonText)
  (table : string) (data : list Row) :
  getTableData (setTableData (LocalStorage items) table data) table = data.
Proof.
  unfold getTableData, setTableData, setItem, getItem.
  by rewrite lookup_insert_eq.
Qed.

Lemma getTableData_setTableData_other (storage : Storage)
  (table other : string) (data : list Row) :
  other <> table ->
  getTableData (setTableData storage table data) other
  = getTableData storage other.
Proof.
  intros Hne. destruct storage as [items|]; [|done].
  unfold getTableData, setTableData, setItem, getItem.
  rewrite lookup_insert_ne; [done|].
  intros Heq. apply Hne. symmetry. by apply tableKey_inj.
Qed.

(** Without a [window] nothing is kept. *)
Lemma getTableData_stub (table : string) : getTableData StubStorage table = [].
Proof. reflexivity. Qed.

Lemma objGet_objSet (item : Row) (key key' : string) (value : Json) :
  objGet (objSet item key value) key'
  = if String.eqb key key' then Some value else objGet item key'.
Proof.
  induction item as [|[k v] item IH]; cbn.
  - done.
  - destruct (String.eqb_spec k key) as [->|Hne]; cbn.
    + by destruct (String.eqb key key').
    + rewrite IH.
      destruct (String.eqb_spec k key') as [->|Hne'];
        destruct (String.eqb_spec key key') as [->|Hne'']; done.
Qed.

Lemma objGet_spread_absent (data item : Row) (key : string) :
  objGet data key = None -> objGet (spread item data) key = objGet item key.
Proof.
  unfold spread. revert item.
  induction data as [|[k v] data IH]; intros item; cbn; [done|].
  destruct (String.eqb_spec k key) as [->|Hne]; [done|].
  intros Hnone. rewrite IH by done. rewrite objGet_objSet.
  by destruct (String.eqb_spec k key).
Qed.

Lemma idIs_of_id (item : Row) (id : string) :
  objGet item "id" = Some (JStr id) -> idIs id item = true.
Proof. unfold idIs. intros ->. cbn. apply String.eqb_refl. Qed.

Lemma find_last {A : Type} (p : A -> bool) (l : list A) (x : A) :
  (forall y, In y l -> p y = false) -> p x = true ->
  find p (l ++ [x]) = Some x.
Proof.
  intros Hl Hx. induction l as [|y l IH]; cbn.
  - by rewrite Hx.
  - rewrite (Hl y) by by left. apply IH. intros z Hz. apply Hl. by right.
Qed.

Lemma insert_returns (r : Readings) (storage : Storage) (table : string)
  (data : Row) :
  snd (LocalStorage_insert r storage table data)
  = Resolved (insertedItem r data).
Proof. reflexivity. Qed.

(** C9, as the code has it: for the local-storage provider built in a
    browser, for every table and every data of JSON values, [insert]
    resolves to a record [r]; if data has no [id] property, [r.id] is
    the generated id; and whenever [r.id] is a string that no record
    already in the table has as its id, [findById(table, r.id)] right
    after the insert resolves to [r]. *)
Theorem insert_then_findById (r : Readings) (items : gmap string JsonText)
  (table : string) (data : Row) :
  let storage := newLocalStorageDatabaseProvider (Some items) in
  let storage' := fst (LocalStorage_insert r storage table data) in
  let newItem := insertedItem r data in
  snd (LocalStorage_insert r storage table data) = Resolved newItem
  /\ (objGet data "id" = None -> objGet newItem "id" = Some (JStr (localId r)))
  /\ (forall id,
        objGet newItem "id" = Some (JStr id) ->
        (forall item, In item (getTableData storage table) ->
                      idIs id item = false) ->
        LocalStorage_findById storage' table id
        = (storage', Resolved (Some newItem))).
Proof.
  cbn zeta. split; [reflexivity|]. split.
  - intros Hnone. unfold insertedItem.
    rewrite !objGet_objSet. cbn [String.eqb Ascii.eqb Bool.eqb].
    by rewrite objGet_spread_absent.
  - intros id Hid Hfresh.
    unfold LocalStorage_findById, LocalStorage_insert. cbn [fst].
    unfold newLocalStorageDatabaseProvider in *.
    rewrite getTableData_setTableData.
    fold (insertedItem r data).
    rewrite find_last; [done|done|]. by apply idIs_of_id.
Qed.

Lemma insert_then_findById_witness :
  let r := {| dateNow := 1705336200000; randomSuffix := "k3j9x0q1z";
              createdAt := "2024-01-15T16:30:00.000Z";
              updatedAt := "2024-01-15T16:30:00.000Z" |} in
  let storage := newLocalStorageDatabaseProvider (Some ∅) in
  let run := LocalStorage_insert r storage "products" [("name", JStr "shoe")] in
  snd (LocalStorage_findById (fst run) "products" "local_1705336200000_k3j9x0q1z")
  = Resolved (Some [("id", JStr "local_1705336200000_k3j9x0q1z");
                    ("name", JStr "shoe");
                    ("created_at", JStr "2024-01-15T16:30:00.000Z");
                    ("updated_at", JStr "2024-01-15T16:30:00.000Z")]).
Proof.
  cbn zeta.
  destruct (insert_then_findById
              {| dateNow := 1705336200000; randomSuffix := "k3j9x0q1z";
                 createdAt := "2024-01-15T16:30:00.000Z";
                 updatedAt := "2024-01-15T16:30:00.000Z" |}
              ∅ "products" [("name", JStr "shoe")]) as (_ & _ & Hfind).
  cbn zeta in Hfind.
  rewrite (Hfind "local_1705336200000_k3j9x0q1z").
  - reflexivity.
  - reflexivity.
  - intros item Hin. destruct Hin.
Defined.

(** C9, as the specification words it, fails twice. Where there is no
    [window] the provider keeps nothing, and [findById] after [insert]
    resolves to [null]. In a browser, when data carries the id of a
    record already in the table, [findById] resolves to that older
    record. *)
Lemma insert_then_findById_fails :
  let r := {| dateNow := 1705336200000; randomSuffix := "k3j9x0q1z";
              createdAt := "2024-01-15T16:30:00.000Z";
              updatedAt := "2024-01-15T16:30:00.000Z" |} in
  let server := newLocalStorageDatabaseProvider None in
  let run := LocalStorage_insert r server "products" [("name", JStr "shoe")] in
  let boot : Row := [("id", JStr "7"); ("name", JStr "boot")] in
  let browser :=
    newLocalStorageDatabaseProvider
      (Some {[ "db_products" := JSON_stringify [boot] ]}) in
  let run' :=
    LocalStorage_insert r browser "products"
                        [("id", JStr "7"); ("name", JStr "shoe")] in
  (snd run
   = Resolved [("id", JStr "local_1705336200000_k3j9x0q1z");
               ("name", JStr "shoe");
               ("created_at", JStr "2024-01-15T16:30:00.000Z");
               ("updated_at", JStr "2024-01-15T16:30:00.000Z")]
   /\ snd (LocalStorage_findById (fst run) "products"
                                 "local_1705336200000_k3j9x0q1z")
      = Resolved None)
  /\ (snd run'
      = Resolved [("id", JStr "7"); ("name", JStr "shoe");
                  ("created_at", JStr "2024-01-15T16:30:00.000Z");
                  ("updated_at", JStr "2024-01-15T16:30:00.000Z")]
      /\ snd (LocalStorage_findById (fst run') "products" "7")
         = Resolved (Some boot)).
Proof. cbn zeta. repeat split; by vm_compute. Qed.

Lemma filter_sublist {A : Type} (p : A -> bool) (l : list A) :
  sublist (List.filter p l) l.
Proof.
  induction l as [|x l IH]; cbn; [constructor|].
  destruct (p x); by constructor.
Qed.

Lemma filter_all {A : Type} (p : A -> bool) (l : list A) :
  (forall x, In x l -> p x = true) -> List.filter p l = l.
Proof.
  intros H. induction l as [|x l IH]; cbn; [done|].
  rewrite (H x) by by left. f_equal. apply IH. intros y Hy. apply H. by right.
Qed.

Lemma delete_table (storage : Storage) (table id : string) :
  getTableData (fst (LocalStorage_delete storage table id)) table
  = List.filter (fun item => negb (idIs id item)) (getTableData storage table).
Proof.
  unfold LocalStorage_delete. cbn [fst].
  destruct storage as [items|]; [|done].
  by rewrite getTableData_setTableData.
Qed.

(** C10: [delete] on the local-storage provider always resolves. The
    table afterwards is the table before without the records whose id
    is the given one, the others in their order; when no record has
    that id the table is as before; other tables are untouched. *)
Theorem delete_removes_exactly (storage : Storage) (table id : string) :
  let storage' := fst (LocalStorage_delete storage table id) in
  snd (LocalStorage_delete storage table id) = Resolved tt
  /\ getTableData storage' table
     = List.filter (fun item => negb (idIs id item)) (getTableData storage table)
  /\ ((forall item, In item (getTableData storage table) ->
                    idIs id item = false) ->
      getTableData storage' table = getTableData storage table)
  /\ (forall item,
        In item (getTableData storage' table)
        <-> In item (getTableData storage table) /\ idIs id item = false)
  /\ sublist (getTableData storage' table) (getTableData storage table)
  /\ (forall other, other <> table ->
        getTableData storage' other = getTableData storage other).
Proof.
  cbn zeta. split; [reflexivity|]. split; [apply delete_table|].
  split; [|split; [|split]].
  - intros Hnone. rewrite delete_table. apply filter_all.
    intros item Hin. by rewrite (Hnone item Hin).
  - intros item. rewrite delete_table, List.filter_In.
    by rewrite negb_true_iff.
  - rewrite delete_table. apply filter_sublist.
  - intros other Hne. unfold LocalStorage_delete. cbn [fst].
    by apply getTableData_setTableData_other.
Qed.

Lemma delete_removes_exactly_witness :
  let boot : Row := [("id", JStr "7"); ("name", JStr "boot")] in
  let shoe : Row := [("id", JStr "8"); ("name", JStr "shoe")] in
  let storage := LocalStorage {[ "db_products" := JSON_stringify [boot; shoe] ]} in
  getTableData (fst (LocalStorage_delete storage "products" "9")) "products"
  = [boot; shoe]
  /\ getTableData (fst (LocalStorage_delete storage "products" "7")) "products"
     = [shoe]
  /\ getTableData (fst (LocalStorage_delete storage "products" "7")) "orders"
     = getTableData storage "orders".
Proof.
  cbn zeta.
  pose proof (delete_removes_exactly
    (LocalStorage {[ "db_products" :=
       JSON_stringify [[("id", JStr "7"); ("name", JStr "boot")];
                       [("id", JStr "8"); ("name", JStr "shoe")]] ]})
    "products" "9") as (_ & _ & Hsame & _).
  pose proof (delete_removes_exactly
    (LocalStorage {[ "db_products" :=
       JSON_stringify [[("id", JStr "7"); ("name", JStr "boot")];
                       [("id", JStr "8"); ("name", JStr "shoe")]] ]})
    "products" "7") as (_ & Hfilter & _ & _ & _ & Hother).
  cbn zeta in Hsame, Hfilter, Hother.
  split; [|split].
  - rewrite Hsame; [reflexivity|].
    intros item Hin. vm_compute in Hin.
    destruct Hin as [<-|[<-|[]]]; reflexivity.
  - rewrite Hfilter. reflexivity.
  - apply Hother. discriminate.
Defined.

(* ===================================================================== *)
(** ** Further properties of the configuration registry                  *)
(* ===================================================================== *)

Lemma requiredErrors_loaded (env : Env) : requiredErrors (config env) = [].
Proof. reflexivity. Qed.

Lemma implb_true (a b : bool) : a && negb b = false <-> (a = true -> b = true).
Proof. destruct a, b; cbn; intuition congruence. Qed.

(** For a configuration loaded from the environment no feature is
    required, so [validateConfig] reports dependency errors only, at
    most three, and the configuration is valid exactly when database,
    payments and email each have their provider whenever they are
    enabled. Authentication without any auth provider is not
    reported. *)
Theorem validateConfig_loaded (env : Env) :
  let cfg := config env in
  (valid (validateConfig cfg) = true
   <-> (isFeatureEnabled cfg Database = true ->
        isProviderEnabled cfg Supabase = true)
       /\ (isFeatureEnabled cfg Payments = true ->
           isProviderEnabled cfg Stripe = true)
       /\ (isFeatureEnabled cfg Email = true ->
           isProviderEnabled cfg Sendgrid = true))
  /\ length (errors (validateConfig cfg)) <= 3
  /\ (forall f : Feature,
        ~ In (requiredFeatureMessage (featureKey f))
             (errors (validateConfig cfg))).
Proof.
  cbn zeta.
  change (valid (validateConfig (config env)))
    with (Nat.eqb (length (errors (validateConfig (config env)))) 0).
  rewrite validateConfig_errors, requiredErrors_loaded.
  rewrite <- !implb_true.
  destruct (isFeatureEnabled (config env) Database
            && negb (isProviderEnabled (config env) Supabase));
    destruct (isFeatureEnabled (config env) Payments
              && negb (isProviderEnabled (config env) Stripe));
    destruct (isFeatureEnabled (config env) Email
              && negb (isProviderEnabled (config env) Sendgrid));
    cbn; (split; [intuition congruence|]); (split; [lia|]);
    intros f; destruct f; cbn; intuition discriminate.
Qed.

Lemma orElse_cases (v : option string) (dflt : string) :
  (truthy v = true /\ v = Some (orElse v dflt))
  \/ (truthy v = false /\ orElse v dflt = dflt).
Proof.
  destruct v as [s|]; cbn; [|by right].
  destruct (String.eqb s EmptyString); cbn; [by right|by left].
Qed.

Lemma orElse_nonempty (v : option string) (dflt : string) :
  dflt <> EmptyString -> orElse v dflt <> EmptyString.
Proof.
  intros Hd. destruct v as [s|]; cbn; [|done].
  destruct (String.eqb_spec s EmptyString); done.
Qed.

(** [getFeatureFallback] never returns the empty string. For a loaded
    configuration its answer does not depend on the environment and is
    never the generic 'Feature disabled'. *)
Theorem getFeatureFallback_text (cfg : XionConfig) (env : Env) (f : Feature) :
  getFeatureFallback cfg f <> EmptyString
  /\ getFeatureFallback (config env) f = getFeatureFallback (config ∅) f
  /\ getFeatureFallback (config env) f <> "Feature disabled".
Proof.
  split; [by apply orElse_nonempty|].
  split; destruct f; done.
Qed.

(** The interface settings are opt-out: branding and animations are on
    unless their variable is exactly "false". The text settings and the
    AWS region take the variable when it is set and non-empty and their
    default otherwise, so none of them is ever empty. *)
Theorem defaultConfig_defaults (env : Env) :
  let cfg := config env in
  (showBranding (ui cfg) = false
   <-> env !! "NEXT_PUBLIC_SHOW_BRANDING" = Some "false")
  /\ (enableAnimations (ui cfg) = false
      <-> env !! "NEXT_PUBLIC_ENABLE_ANIMATIONS" = Some "false")
  /\ theme (ui cfg) = orElse (env !! "NEXT_PUBLIC_THEME") "system"
  /\ primaryColor (ui cfg)
     = orElse (env !! "NEXT_PUBLIC_PRIMARY_COLOR") "#3b82f6"
  /\ Config.name (app cfg)
     = orElse (env !! "NEXT_PUBLIC_APP_NAME") "Xion Stack App"
  /\ description (app cfg)
     = orElse (env !! "NEXT_PUBLIC_APP_DESCRIPTION")
              "Built with the bulletproof Xion Stack"
  /\ app_url (app cfg)
     = orElse (env !! "NEXT_PUBLIC_APP_URL") "http://localhost:3000"
  /\ supportEmail (app cfg)
     = orElse (env !! "NEXT_PUBLIC_SUPPORT_EMAIL") "support@example.com"
  /\ region (aws (providers cfg)) = Some (orElse (env !! "AWS_REGION") "us-east-1")
  /\ (forall (v : option string) (dflt : string),
        (truthy v = true /\ Some (orElse v dflt) = v)
        \/ (truthy v = false /\ orElse v dflt = dflt))
  /\ Forall (fun s => s <> EmptyString)
       [theme (ui cfg); primaryColor (ui cfg); Config.name (app cfg);
        description (app cfg); app_url (app cfg); supportEmail (app cfg);
        orElse (env !! "AWS_REGION") "us-east-1"].
Proof.
  cbn zeta. cbn [config defaultConfig ui app providers aws region theme
                 primaryColor showBranding enableAnimations Config.name
                 description app_url supportEmail].
  rewrite !negb_false_iff, !strictEq_true.
  do 9 (split; [done|]). split.
  - intros v dflt. destruct (orElse_cases v dflt) as [[? ?]|[? ?]];
      [left|right]; done.
  - repeat constructor; by apply orElse_nonempty.
Qed.

(* ===================================================================== *)
(** ** The selection tables of the factories                             *)
(* ===================================================================== *)

Lemma isDevelopment_true (env : Env) :
  isDevelopment env = true <-> env !! "NODE_ENV" = Some "development".
Proof. apply strictEq_true. Qed.

(** [getAuthProvider] chooses by this table: Supabase whenever
    authentication and Supabase are enabled, whatever else is set;
    Auth0 only without Supabase; the mock only in development and
    without both; the disabled stub when the feature is off or, outside
    development, when neither provider is enabled. *)
Theorem getAuthProvider_selection (env : Env) :
  let cfg := config env in
  let on := isFeatureEnabled cfg Authentication in
  let sb := isProviderEnabled cfg Supabase in
  let a0 := isProviderEnabled cfg Auth0 in
  let dev := isDevelopment env in
  (getAuthProvider env = Normal SupabaseAuthProvider
   <-> on = true /\ sb = true)
  /\ (getAuthProvider env = Normal Auth0Provider
      <-> on = true /\ sb = false /\ a0 = true)
  /\ (getAuthProvider env = Normal MockAuthProvider
      <-> on = true /\ sb = false /\ a0 = false /\ dev = true)
  /\ (getAuthProvider env = Normal NoAuthProvider
      <-> on = false \/ (sb = false /\ a0 = false /\ dev = false)).
Proof.
  cbn zeta. unfold getAuthProvider.
  destruct (isFeatureEnabled (config env) Authentication),
    (isProviderEnabled (config env) Supabase),
    (isProviderEnabled (config env) Auth0),
    (isDevelopment env); cbn; intuition congruence.
Qed.

(** [getDatabaseProvider] throws exactly when the database feature is
    enabled, Supabase is not, and the mode is not development; it
    returns the local-storage fallback exactly in development with the
    feature on and Supabase off, and that is the only case in which it
    writes a warning; with the feature off it returns the disabled stub
    even when Supabase is configured. *)
Theorem getDatabaseProvider_selection (env : Env) :
  let cfg := config env in
  let on := isFeatureEnabled cfg Database in
  let sb := isProviderEnabled cfg Supabase in
  let dev := isDevelopment env in
  ((exists e, completion (getDatabaseProvider env) = Throw e)
   <-> on = true /\ sb = false /\ dev = false)
  /\ (completion (getDatabaseProvider env) = Normal LocalStorageDatabaseProvider
      <-> on = true /\ sb = false /\ dev = true)
  /\ (warnings (getDatabaseProvider env) <> []
      <-> completion (getDatabaseProvider env)
          = Normal LocalStorageDatabaseProvider)
  /\ (completion (getDatabaseProvider env) = Normal SupabaseDatabaseProvider
      <-> on = true /\ sb = true)
  /\ (completion (getDatabaseProvider env) = Normal NoDatabaseProvider
      <-> on = false).
Proof.
  cbn zeta. unfold getDatabaseProvider.
  destruct (isFeatureEnabled (config env) Database),
    (isProviderEnabled (config env) Supabase),
    (isDevelopment env); cbn;
    (split; [split; [intros [e He]; by inversion He | intros (? & ? & ?)];
             try discriminate; eauto |]);
    intuition congruence.
Qed.

(** [getPaymentProvider] never throws; it returns the mock only in
    development with payments on and Stripe off, Stripe exactly when
    both are on, and the disabled stub otherwise. *)
Theorem getPaymentProvider_selection (env : Env) :
  let cfg := config env in
  let on := isFeatureEnabled cfg Payments in
  let st := isProviderEnabled cfg Stripe in
  let dev := isDevelopment env in
  (getPaymentProvider env = Normal StripePaymentProvider
   <-> on = true /\ st = true)
  /\ (getPaymentProvider env = Normal MockPaymentProvider
      <-> on = true /\ st = false /\ dev = true)
  /\ (getPaymentProvider env = Normal NoPaymentProvider
      <-> on = false \/ (st = false /\ dev = false)).
Proof.
  cbn zeta. unfold getPaymentProvider.
  destruct (isFeatureEnabled (config env) Payments),
    (isProviderEnabled (config env) Stripe),
    (isDevelopment env); cbn; intuition congruence.
Qed.

(** The revision of [getAuthProvider] without Auth0 answers as the
    first one does, except where the first one chooses Auth0: there it
    falls through to the mock in development and to the disabled stub
    otherwise. *)
Theorem getAuthProvider_revisions (env : Env) :
  (getAuthProvider env <> Normal Auth0Provider ->
   getAuthProvider_withoutAuth0 env = getAuthProvider env)
  /\ (getAuthProvider env = Normal Auth0Provider ->
      getAuthProvider_withoutAuth0 env
      = if isDevelopment env then Normal MockAuthProvider
        else Normal NoAuthProvider).
Proof.
  unfold getAuthProvider, getAuthProvider_withoutAuth0.
  destruct (isFeatureEnabled (config env) Authentication),
    (isProviderEnabled (config env) Supabase),
    (isProviderEnabled (config env) Auth0),
    (isDevelopment env); cbn; split; intros; congruence.
Qed.

Lemma getAuthProvider_revisions_witness :
  getAuthProvider productionEnv = Normal NoAuthProvider
  /\ getAuthProvider_withoutAuth0 productionEnv = Normal NoAuthProvider.
Proof.
  split; [reflexivity|].
  rewrite (proj1 (getAuthProvider_revisions productionEnv)).
  - reflexivity.
  - discriminate.
Defined.

(* ===================================================================== *)
(** ** Further properties of the auth providers and of [useAuth]         *)
(* ===================================================================== *)

Lemma mapSet_keys_present (users : Users) (key : string) (value : User) :
  In key (map fst users) ->
  map fst (mapSet users key value) = map fst users.
Proof.
  induction users as [|[k v] users IH]; cbn [mapSet map fst]; [done|].
  intros Hin. destruct (String.eqb_spec k key) as [->|Hne]; [done|].
  cbn [map fst]. f_equal. apply IH. destruct Hin; done.
Qed.

Lemma mapSet_keys_absent (users : Users) (key : string) (value : User) :
  ~ In key (map fst users) ->
  map fst (mapSet users key value) = map fst users ++ [key].
Proof.
  induction users as [|[k v] users IH]; cbn [mapSet map fst]; [done|].
  intros Hnin. destruct (String.eqb_spec k key) as [->|Hne].
  - exfalso. apply Hnin. by left.
  - cbn [map fst]. rewrite IH; [done|]. intros Hin. apply Hnin. by right.
Qed.

(** The users [Map] of the mock keeps its keys unique: [signIn] with an
    email already stored replaces that entry where it stands, with a
    new email it adds one entry at the end; either way the email is a
    key afterwards. *)
Theorem mock_signIn_keys (users : Users) (email password : string) :
  NoDup (map fst users) ->
  let users' := fst (MockAuthProvider_signIn users email password) in
  NoDup (map fst users')
  /\ In email (map fst users')
  /\ (In email (map fst users) -> map fst users' = map fst users)
  /\ (~ In email (map fst users) -> map fst users' = map fst users ++ [email]).
Proof.
  intros Hnd. cbn zeta. unfold MockAuthProvider_signIn. cbn [fst].
  destruct (List.in_dec string_dec email (map fst users)) as [Hin|Hnin].
  - rewrite mapSet_keys_present by done. repeat split; done.
  - rewrite mapSet_keys_absent by done. repeat split; try done.
    + apply NoDup_app. repeat split; [done| |apply NoDup_singleton].
      intros x Hx Hx'. apply list_elem_of_singleton in Hx' as ->.
      apply Hnin. by apply list_elem_of_In.
    + apply List.in_or_app. right. by left.
Qed.

Lemma mock_signIn_keys_witness :
  map fst (fst (MockAuthProvider_signIn
                  (fst (MockAuthProvider_signIn newUsers "a@b.com" "x"))
                  "c@d.com" "y"))
  = ["a@b.com"; "c@d.com"].
Proof.
  pose proof (mock_signIn_keys
                (fst (MockAuthProvider_signIn newUsers "a@b.com" "x"))
                "c@d.com" "y") as H.
  cbn zeta in H. destruct H as (_ & _ & _ & Hnew).
  - apply (bool_decide_unpack _). by vm_compute.
  - rewrite Hnew; [reflexivity|]. cbn. intros [H|[]]. discriminate.
Defined.

(** [getCurrentUser] on the mock answers with the first user ever
    stored: once somebody is stored, a [signIn] under another email
    does not change who the current user is. *)
Theorem mock_current_user_is_first (first_key : string) (first_user : User)
  (rest : Users) (email password : string) :
  first_key <> email ->
  snd (MockAuthProvider_getCurrentUser
         (fst (MockAuthProvider_signIn ((first_key, first_user) :: rest)
                                       email password)))
  = Resolved (Some first_user).
Proof.
  intros Hne. unfold MockAuthProvider_signIn, MockAuthProvider_getCurrentUser.
  cbn. destruct (String.eqb_spec first_key email); done.
Qed.

Lemma mock_current_user_is_first_witness :
  let users1 := fst (MockAuthProvider_signIn newUsers "a@b.com" "x") in
  let users2 := fst (MockAuthProvider_signIn users1 "c@d.com" "y") in
  exists u, snd (MockAuthProvider_getCurrentUser users2) = Resolved (Some u)
            /\ Auth.email u = "a@b.com".
Proof.
  cbn zeta. eexists. split.
  - apply (mock_current_user_is_first "a@b.com" _ [] "c@d.com" "y").
    discriminate.
  - reflexivity.
Defined.

(** [signUp] on the mock always resolves to a user with the given
    email and the id 'mock-user-' followed by the clock reading; the
    name is the one supplied when it is non-empty and the part of the
    email before the first '@' otherwise (the whole email when it has
    no '@'). On a fresh provider that user becomes the current one. *)
Theorem mock_signUp_user (now : N) (users : Users) (email password : string)
  (display : option string) :
  exists user,
    snd (MockAuthProvider_signUp now users email password display)
    = Resolved (Some user)
    /\ Auth.id user = "mock-user-" +:+ numberToString now
    /\ Auth.email user = email
    /\ Auth.name user
       = (if truthy display then display
          else Some (splitHead "@"%char email))
    /\ role user = Some "user"
    /\ snd (MockAuthProvider_getCurrentUser
              (fst (MockAuthProvider_signUp now newUsers email password display)))
       = Resolved (Some user).
Proof.
  eexists. split; [reflexivity|]. cbn [Auth.id Auth.email Auth.name role].
  rewrite first_split. repeat split.
  unfold MockAuthProvider_signUp, MockAuthProvider_getCurrentUser. cbn.
  by rewrite first_split.
Qed.

(** A [signIn] after a [signUp] under the same email overwrites the
    stored user: on a fresh provider the current user then has the id
    'mock-user-1' and the name taken from the email, and the name given
    at sign-up is gone. *)
Theorem mock_signIn_overwrites_signUp (now : N)
  (email password password' : string) (display : option string) :
  let users1 :=
    fst (MockAuthProvider_signUp now newUsers email password display) in
  let users2 := fst (MockAuthProvider_signIn users1 email password') in
  length users2 = 1
  /\ snd (MockAuthProvider_getCurrentUser users2)
     = Resolved (Some {| id := "mock-user-1"; Auth.email := email;
                         Auth.name := Some (splitHead "@"%char email);
                         avatar := None; role := Some "user";
                         metadata := None |}).
Proof.
  cbn zeta. unfold MockAuthProvider_signUp, MockAuthProvider_signIn,
    MockAuthProvider_getCurrentUser.
  cbn. rewrite String.eqb_refl. cbn. by rewrite first_split.
Qed.

(** [Auth0Provider] never yields a user: [signIn] and [signUp] always
    reject, [getCurrentUser] and [updateProfile] always resolve to
    [null], [signOut] and [resetPassword] always resolve, whether or
    not the Auth0 module was loaded. *)
Theorem Auth0Provider_never_a_user (auth0 : bool) (email password : string)
  (display : option string) (updates : User) :
  Auth0Provider_signIn auth0 email password
  = Rejected (Error "Auth0 sign-in handled through hosted login page")
  /\ Auth0Provider_signUp auth0 email password display
     = Rejected (Error "Auth0 sign-up handled through hosted login page")
  /\ Auth0Provider_getCurrentUser auth0 = Resolved None
  /\ Auth0Provider_updateProfile auth0 updates = Resolved None
  /\ Auth0Provider_signOut auth0 = Resolved tt
  /\ Auth0Provider_resetPassword auth0 email = Resolved tt.
Proof. destruct auth0; repeat split. Qed.

Section HookProperties.
Context {S : Type} (auth : AuthProviderImpl S).

(** Whatever the provider, a handler of [useAuth] whose provider call
    rejects leaves the hook's state as it was and passes the rejection
    on; a [signOut] that resolves clears the user. *)
Theorem useAuth_rejection_keeps_state (p : S) (h : HookState)
  (email password : string) (display : option string) (updates : User) :
  (forall e, snd (impl_signIn auth p email password) = Rejected e ->
     snd (fst (useAuth_signIn auth p h email password)) = h
     /\ snd (useAuth_signIn auth p h email password) = Rejected e)
  /\ (forall e, snd (impl_signUp auth p email password display) = Rejected e ->
        snd (fst (useAuth_signUp auth p h email password display)) = h
        /\ snd (useAuth_signUp auth p h email password display) = Rejected e)
  /\ (forall e, snd (impl_updateProfile auth p updates) = Rejected e ->
        snd (fst (useAuth_updateProfile auth p h updates)) = h
        /\ snd (useAuth_updateProfile auth p h updates) = Rejected e)
  /\ (forall e, snd (impl_signOut auth p) = Rejected e ->
        snd (fst (useAuth_signOut auth p h)) = h
        /\ snd (useAuth_signOut auth p h) = Rejected e)
  /\ (snd (impl_signOut auth p) = Resolved tt ->
        isAuthenticated (snd (fst (useAuth_signOut auth p h))) = false).
Proof.
  unfold useAuth_signIn, useAuth_signUp, useAuth_updateProfile, useAuth_signOut.
  repeat split; intros; repeat case_match; simplify_eq/=; done.
Qed.

End HookProperties.

Lemma useAuth_rejection_keeps_state_witness :
  snd (fst (useAuth_signIn noAuthImpl tt initialHook "a@b.com" "x"))
  = initialHook.
Proof.
  apply (proj1 (useAuth_rejection_keeps_state noAuthImpl tt initialHook
                  "a@b.com" "x" None
                  {| id := EmptyString; Auth.email := EmptyString;
                     Auth.name := None; avatar := None; role := None;
                     metadata := None |})
           (Error "Authentication is disabled")).
  reflexivity.
Defined.

(** With the mock provider, [updateProfile] through the hook signs the
    user out of the hook: the mock resolves to [null], the hook stores
    it, and [isAuthenticated] turns false while the provider still
    reports the user. *)
Theorem useAuth_mock_updateProfile_clears_user (now : N) (users : Users)
  (h : HookState) (email password : string) (updates : User) :
  let '(users1, h1, _) :=
    useAuth_signIn (mockAuthImpl now) users h email password in
  let '(users2, h2, res) :=
    useAuth_updateProfile (mockAuthImpl now) users1 h1 updates in
  isAuthenticated h1 = true
  /\ res = Resolved None
  /\ isAuthenticated h2 = false
  /\ observedState users2 = Authenticated.
Proof.
  cbn. repeat split.
  apply (mock_signOut_stays_authenticated users email password).
Qed.

(** With the mock provider, signing out through the hook does not
    survive a remount: [signOut] clears the hook's user, and the effect
    run on the next mount reads a user back from the provider. *)
Theorem useAuth_mock_signOut_then_mount (now : N) (users : Users)
  (h : HookState) (cfg : XionConfig) (email password : string) :
  isFeatureEnabled cfg Authentication = true ->
  let '(users1, h1, _) :=
    useAuth_signIn (mockAuthImpl now) users h email password in
  let '(users2, h2, _) := useAuth_signOut (mockAuthImpl now) users1 h1 in
  let '(users3, h3) := useAuth_mount (mockAuthImpl now) cfg users2 initialHook in
  isAuthenticated h2 = false
  /\ isAuthenticated h3 = true
  /\ hook_loading h3 = false.
Proof.
  intros Hon. cbn. unfold useAuth_mount. rewrite Hon. cbn.
  unfold isAuthenticated. cbn.
  destruct (mapSet_nonempty users email
    {| id := "mock-user-1"; Auth.email := email;
       Auth.name := first (split "@"%char email); avatar := None;
       role := Some "user"; metadata := None |}) as [current Hc].
  by rewrite Hc.
Qed.

Lemma useAuth_mock_signOut_then_mount_witness :
  let auth := mockAuthImpl 0 in
  let cfg := config (<["NEXT_PUBLIC_ENABLE_AUTH" := "true"]> ∅) in
  isAuthenticated
    (snd (useAuth_mount auth cfg
            (fst (fst (useAuth_signOut auth
                         (fst (fst (useAuth_signIn auth newUsers initialHook
                                                   "a@b.com" "x")))
                         initialHook)))
            initialHook))
  = true.
Proof.
  cbn zeta.
  pose proof (useAuth_mock_signOut_then_mount 0 newUsers initialHook
                (config (<["NEXT_PUBLIC_ENABLE_AUTH" := "true"]> ∅))
                "a@b.com" "x" eq_refl) as H.
  cbn in H. destruct H as (_ & Hback & _). exact Hback.
Defined.

(* ===================================================================== *)
(** ** Further properties of [LocalStorageDatabaseProvider]              *)
(* ===================================================================== *)

Lemma objGet_absent (item : Row) (key : string) :
  ~ In key (map fst item) -> objGet item key = None.
Proof.
  induction item as [|[k v] item IH]; cbn; [done|].
  intros Hnin. destruct (String.eqb_spec k key) as [->|Hne].
  - exfalso. apply Hnin. by left.
  - apply IH. intros Hin. apply Hnin. by right.
Qed.

(** Spreading an object with unique keys: its properties win over the
    ones already there. *)
Lemma objGet_spread (data item : Row) (key : string) :
  NoDup (map fst data) ->
  objGet (spread item data) key
  = match objGet data key with
    | Some v => Some v
    | None => objGet item key
    end.
Proof.
  unfold spread. revert item.
  induction data as [|[k v] data IH]; intros item Hnd; cbn; [done|].
  apply NoDup_cons in Hnd as [Hk Hnd].
  rewrite IH by done. rewrite objGet_objSet.
  destruct (String.eqb_spec k key) as [->|Hne]; [|done].
  rewrite objGet_absent; [done|]. intros Hin. apply Hk.
  by apply list_elem_of_In.
Qed.

(** Where there is no [window] the provider keeps nothing: every
    operation leaves the storage as it is, [insert] still resolves to a
    record, but [findById] resolves to [null], [findMany] to the empty
    array, [update] rejects with 'not found', also right after an
    insert. *)
Theorem server_storage_keeps_nothing (r : Readings) (table id : string)
  (data : Row) (filters : option Filters) :
  let server := newLocalStorageDatabaseProvider None in
  let afterInsert := fst (LocalStorage_insert r server table data) in
  afterInsert = server
  /\ fst (LocalStorage_update r server table id data) = server
  /\ fst (LocalStorage_delete server table id) = server
  /\ snd (LocalStorage_insert r server table data)
     = Resolved (insertedItem r data)
  /\ snd (LocalStorage_findById afterInsert table id) = Resolved None
  /\ snd (LocalStorage_findMany afterInsert table filters) = Resolved []
  /\ snd (LocalStorage_update r afterInsert table id data)
     = Rejected (Error ("Record with id " +:+ id +:+ " not found")).
Proof. cbn zeta. repeat split. by destruct filters. Qed.

(** In a browser [insert] appends: the table afterwards is the table
    before followed by the new record, every other table is as before,
    and [findMany] without filters lists the new record last. *)
Theorem insert_appends (r : Readings) (items : gmap string JsonText)
  (table other : string) (data : Row) :
  let storage := newLocalStorageDatabaseProvider (Some items) in
  let storage' := fst (LocalStorage_insert r storage table data) in
  getTableData storage' table
  = getTableData storage table ++ [insertedItem r data]
  /\ snd (LocalStorage_findMany storage' table None)
     = Resolved (getTableData storage table ++ [insertedItem r data])
  /\ (other <> table ->
      getTableData storage' other = getTableData storage other).
Proof.
  cbn zeta. unfold LocalStorage_findMany, LocalStorage_insert. cbn [fst snd].
  unfold newLocalStorageDatabaseProvider.
  rewrite getTableData_setTableData. repeat split.
  intros Hne. by apply getTableData_setTableData_other.
Qed.

Lemma insert_appends_witness :
  let r := {| dateNow := 5; randomSuffix := "abc";
              createdAt := "t"; updatedAt := "t" |} in
  let storage := newLocalStorageDatabaseProvider
                   (Some {[ "db_orders" := JSON_stringify [[("id", JStr "1")]] ]}) in
  getTableData (fst (LocalStorage_insert r storage "products" [])) "orders"
  = [[("id", JStr "1")]].
Proof.
  cbn zeta.
  rewrite (proj2 (proj2 (insert_appends
    {| dateNow := 5; randomSuffix := "abc"; createdAt := "t"; updatedAt := "t" |}
    {[ "db_orders" := JSON_stringify [[("id", JStr "1")]] ]}
    "products" "orders" []))).
  - reflexivity.
  - discriminate.
Defined.

(** The record [insert] builds, for data with unique property names:
    [created_at] and [updated_at] are always the clock's, also when
    data supplies them; [id] is data's when data has one and the
    generated id otherwise; every other property is data's. *)
Theorem insert_record_fields (r : Readings) (data : Row) (key : string) :
  NoDup (map fst data) ->
  let item := insertedItem r data in
  objGet item "created_at" = Some (JStr (createdAt r))
  /\ objGet item "updated_at" = Some (JStr (updatedAt r))
  /\ objGet item "id"
     = match objGet data "id" with
       | Some v => Some v
       | None => Some (JStr (localId r))
       end
  /\ (key <> "id" -> key <> "created_at" -> key <> "updated_at" ->
      objGet item key = objGet data key).
Proof.
  intros Hnd. cbn zeta. unfold insertedItem.
  split; [|split; [|split]].
  - rewrite !objGet_objSet. reflexivity.
  - rewrite !objGet_objSet. reflexivity.
  - rewrite !objGet_objSet, objGet_spread by done.
    by destruct (objGet data "id").
  - intros Hid Hc Hu. rewrite !objGet_objSet, objGet_spread by done.
    destruct (String.eqb_spec "updated_at" key) as [<-|_]; [done|].
    destruct (String.eqb_spec "created_at" key) as [<-|_]; [done|].
    cbn [objGet]. destruct (String.eqb_spec "id" key) as [<-|_]; [done|].
    by destruct (objGet data key).
Qed.

Lemma insert_record_fields_witness :
  let r := {| dateNow := 5; randomSuffix := "abc";
              createdAt := "now"; updatedAt := "now" |} in
  let data := [("id", JStr "mine"); ("created_at", JStr "1999")] in
  objGet (insertedItem r data) "created_at" = Some (JStr "now")
  /\ objGet (insertedItem r data) "id" = Some (JStr "mine").
Proof.
  cbn zeta.
  destruct (insert_record_fields
    {| dateNow := 5; randomSuffix := "abc"; createdAt := "now"; updatedAt := "now" |}
    [("id", JStr "mine"); ("created_at", JStr "1999")] "name")
    as (Hc & _ & Hid & _).
  - apply (bool_decide_unpack _). by vm_compute.
  - split; [exact Hc | exact Hid].
Defined.

Lemma findIndex_none (id : string) (tableData : list Row) :
  (forall item, In item tableData -> idIs id item = false) ->
  findIndex id tableData = None.
Proof.
  induction tableData as [|item rest IH]; cbn; [done|].
  intros H. rewrite (H item) by by left.
  rewrite IH; [done|]. intros x Hx. apply H. by right.
Qed.

(** A table with a record of the given id splits at the first such
    record, and [findIndex] is its position. *)
Lemma findIndex_first (id : string) (tableData : list Row) :
  (exists item, In item tableData /\ idIs id item = true) ->
  exists before old after,
    tableData = before ++ old :: after
    /\ (forall item, In item before -> idIs id item = false)
    /\ idIs id old = true
    /\ findIndex id tableData = Some (length before).
Proof.
  induction tableData as [|x rest IH]; intros (item & Hin & Hid); [done|].
  cbn. destruct (idIs id x) eqn:Hx.
  - exists [], x, rest. repeat split; [|done]. by intros ? [].
  - destruct IH as (before & old & after & -> & Hb & Ho & Hf).
    { exists item. split; [|done]. destruct Hin as [<-|Hin]; [congruence|done]. }
    exists (x :: before), old, after. rewrite Hf. repeat split; [|done].
    intros y [<-|Hy]; [done|by apply Hb].
Qed.

(** [update] of an id no record has rejects with 'Record with id ...
    not found' and writes nothing. *)
Theorem update_missing_rejects (r : Readings) (storage : Storage)
  (table id : string) (data : Row) :
  (forall item, In item (getTableData storage table) -> idIs id item = false) ->
  LocalStorage_update r storage table id data
  = (storage, Rejected (Error ("Record with id " +:+ id +:+ " not found"))).
Proof.
  intros Hnone. unfold LocalStorage_update. by rewrite findIndex_none.
Qed.

Lemma update_missing_rejects_witness :
  snd (LocalStorage_update
         {| dateNow := 5; randomSuffix := "abc"; createdAt := "t"; updatedAt := "t" |}
         (LocalStorage ∅) "products" "42" [("name", JStr "shoe")])
  = Rejected (Error "Record with id 42 not found").
Proof.
  rewrite update_missing_rejects; [reflexivity|]. by intros item [].
Defined.

Lemma find_first {A : Type} (p : A -> bool) (before after : list A) (x : A) :
  (forall y, In y before -> p y = false) -> p x = true ->
  find p (before ++ x :: after) = Some x.
Proof.
  intros Hb Hx. induction before as [|y before IH]; cbn.
  - by rewrite Hx.
  - rewrite (Hb y) by by left. apply IH. intros z Hz. apply Hb. by right.
Qed.

(** In a browser, [update] of an existing id with data that has no
    [id] property resolves to the first record of that id with data's
    properties laid over it and [updated_at] set from the clock; the
    record keeps its id, the table keeps its length, and [findById]
    right afterwards resolves to the updated record. *)
Theorem update_then_findById (r : Readings) (items : gmap string JsonText)
  (table id : string) (data : Row) :
  NoDup (map fst data) ->
  objGet data "id" = None ->
  (exists item, In item (getTableData (LocalStorage items) table)
                /\ idIs id item = true) ->
  let storage := LocalStorage items in
  let storage' := fst (LocalStorage_update r storage table id data) in
  exists old updated,
    find (idIs id) (getTableData storage table) = Some old
    /\ updated = objSet (spread old data) "updated_at" (JStr (updatedAt r))
    /\ snd (LocalStorage_update r storage table id data) = Resolved updated
    /\ objGet updated "id" = objGet old "id"
    /\ objGet updated "updated_at" = Some (JStr (updatedAt r))
    /\ length (getTableData storage' table)
       = length (getTableData storage table)
    /\ snd (LocalStorage_findById storage' table id) = Resolved (Some updated).
Proof.
  intros Hnd Hnoid Hex. cbn zeta.
  destruct (findIndex_first id _ Hex) as (before & old & after & Ht & Hb & Ho & Hf).
  exists old, (objSet (spread old data) "updated_at" (JStr (updatedAt r))).
  assert (Hid : objGet (objSet (spread old data) "updated_at" (JStr (updatedAt r)))
                       "id" = objGet old "id").
  { rewrite objGet_objSet, objGet_spread by done. cbn. by rewrite Hnoid. }
  assert (Hnth : nth (length before) (before ++ old :: after) [] = old).
  { rewrite List.app_nth2 by lia. by rewrite Nat.sub_diag. }
  unfold LocalStorage_update, LocalStorage_findById.
  rewrite Hf, Ht, Hnth. cbn [fst snd].
  rewrite getTableData_setTableData.
  assert (Hins : <[length before := objSet (spread old data) "updated_at"
                                      (JStr (updatedAt r))]>
                   (before ++ old :: after)
                 = before ++ objSet (spread old data) "updated_at"
                                    (JStr (updatedAt r)) :: after).
  { rewrite insert_app_r_alt by lia. by rewrite Nat.sub_diag. }
  rewrite Hins. repeat split.
  - by apply find_first.
  - exact Hid.
  - rewrite objGet_objSet. by rewrite String.eqb_refl.
  - by rewrite !length_app.
  - f_equal. apply find_first; [done|]. unfold idIs in *. by rewrite Hid.
Qed.

Lemma update_then_findById_witness :
  let r := {| dateNow := 5; randomSuffix := "abc";
              createdAt := "t1"; updatedAt := "t2" |} in
  let storage :=
    LocalStorage {[ "db_products" :=
      JSON_stringify [[("id", JStr "7"); ("name", JStr "boot")]] ]} in
  snd (LocalStorage_findById
         (fst (LocalStorage_update r storage "products" "7"
                                   [("name", JStr "shoe")]))
         "products" "7")
  = Resolved (Some [("id", JStr "7"); ("name", JStr "shoe");
                    ("updated_at", JStr "t2")]).
Proof.
  cbn zeta.
  destruct (update_then_findById
    {| dateNow := 5; randomSuffix := "abc"; createdAt := "t1"; updatedAt := "t2" |}
    {[ "db_products" :=
         JSON_stringify [[("id", JStr "7"); ("name", JStr "boot")]] ]}
    "products" "7" [("name", JStr "shoe")])
    as (old & updated & Hold & Hupd & _ & _ & _ & _ & Hfind).
  - apply (bool_decide_unpack _). by vm_compute.
  - reflexivity.
  - exists [("id", JStr "7"); ("name", JStr "boot")]. split; [|reflexivity].
    vm_compute. by left.
  - cbn zeta in Hfind. rewrite Hfind, Hupd.
    vm_compute in Hold. injection Hold as <-. reflexivity.
Defined.

Lemma find_filter_none {A : Type} (p : A -> bool) (l : list A) :
  find p (List.filter (fun x => negb (p x)) l) = None.
Proof.
  induction l as [|x l IH]; cbn; [done|].
  destruct (p x) eqn:Hp; cbn; [done|]. by rewrite Hp.
Qed.

Lemma filter_idem {A : Type} (p : A -> bool) (l : list A) :
  List.filter p (List.filter p l) = List.filter p l.
Proof.
  induction l as [|x l IH]; cbn; [done|].
  destruct (p x) eqn:Hp; cbn; [|done]. by rewrite Hp, IH.
Qed.

(** After [delete(table, id)], [findById(table, id)] resolves to [null]
    and [update(table, id, ...)] rejects; deleting the same id again
    changes nothing more. This holds in a browser and without one. *)
Theorem delete_then_findById (r : Readings) (storage : Storage)
  (table id : string) (data : Row) :
  let storage' := fst (LocalStorage_delete storage table id) in
  snd (LocalStorage_findById storage' table id) = Resolved None
  /\ snd (LocalStorage_update r storage' table id data)
     = Rejected (Error ("Record with id " +:+ id +:+ " not found"))
  /\ getTableData (fst (LocalStorage_delete storage' table id)) table
     = getTableData storage' table.
Proof.
  cbn zeta. split; [|split].
  - unfold LocalStorage_findById. cbn [snd].
    rewrite delete_table. by rewrite find_filter_none.
  - rewrite update_missing_rejects; [done|].
    intros item. rewrite delete_table, List.filter_In.
    intros [_ H]. by apply negb_true_iff in H.
  - rewrite !delete_table. apply filter_idem.
Qed.

(** In a browser, an [insert] followed by [delete] of the id the insert
    returned restores the table, provided no record of the table had
    that id before. *)
Theorem insert_then_delete (r : Readings) (items : gmap string JsonText)
  (table id : string) (data : Row) :
  objGet (insertedItem r data) "id" = Some (JStr id) ->
  (forall item, In item (getTableData (LocalStorage items) table) ->
                idIs id item = false) ->
  let storage := newLocalStorageDatabaseProvider (Some items) in
  let storage1 := fst (LocalStorage_insert r storage table data) in
  let storage2 := fst (LocalStorage_delete storage1 table id) in
  getTableData storage2 table = getTableData storage table.
Proof.
  intros Hid Hfresh. cbn zeta. rewrite delete_table.
  rewrite (proj1 (insert_appends r items table table data)).
  rewrite List.filter_app. cbn.
  rewrite (idIs_of_id _ _ Hid). cbn. rewrite app_nil_r.
  apply filter_all. intros item Hin.
  unfold newLocalStorageDatabaseProvider in Hin.
  by rewrite (Hfresh item Hin).
Qed.

Lemma insert_then_delete_witness :
  let r := {| dateNow := 5; randomSuffix := "abc";
              createdAt := "t"; updatedAt := "t" |} in
  let storage :=
    newLocalStorageDatabaseProvider
      (Some {[ "db_products" :=
                 JSON_stringify [[("id", JStr "7"); ("name", JStr "boot")]] ]}) in
  getTableData
    (fst (LocalStorage_delete
            (fst (LocalStorage_insert r storage "products" [("name", JStr "shoe")]))
            "products" "local_5_abc"))
    "products"
  = [[("id", JStr "7"); ("name", JStr "boot")]].
Proof.
  cbn zeta.
  rewrite (insert_then_delete
    {| dateNow := 5; randomSuffix := "abc"; createdAt := "t"; updatedAt := "t" |}
    {[ "db_products" :=
         JSON_stringify [[("id", JStr "7"); ("name", JStr "boot")]] ]}
    "products" "local_5_abc" [("name", JStr "shoe")]).
  - reflexivity.
  - reflexivity.
  - intros item Hin. vm_compute in Hin. destruct Hin as [<-|[]]. reflexivity.
Defined.


(** An [undefined] filter value selects the records that lack the
    property. *)
Example findMany_undefined_filter :
  snd (LocalStorage_findMany
         (LocalStorage {[ "db_products" :=
            JSON_stringify [[("id", JStr "7"); ("n", JNum 1)];
                            [("id", JStr "8")]] ]})
         "products" (Some [("n", None)]))
  = Resolved [[("id", JStr "8")]].
Proof. reflexivity. Qed.

(** A filter whose value is an array or an object matches no record:
    parsed values of those kinds are never strictly equal to the
    filter's. *)
Theorem findMany_reference_filter (storage : Storage) (table : string)
  (filters : Filters) (key : string) (value : Json) :
  In (key, Some value) filters ->
  (exists items, value = JArr items) \/ (exists fields, value = JObj fields) ->
  snd (LocalStorage_findMany storage table (Some filters)) = Resolved [].
Proof.
  intros Hin Hkind. unfold LocalStorage_findMany. cbn [snd]. f_equal.
  induction (getTableData storage table) as [|item rest IH]; [done|].
  cbn. rewrite IH.
  assert (Hno : matchesFilters filters item = false); [|by rewrite Hno].
  apply not_true_is_false. unfold matchesFilters.
  rewrite List.forallb_forall. intros Hall. specialize (Hall _ Hin).
  unfold propertyIs in Hall. cbn in Hall.
  destruct (objGet item key) as [stored|]; [|done].
  destruct Hkind as [[? ->]|[? ->]]; by destruct stored.
Qed.

Lemma findMany_reference_filter_witness :
  snd (LocalStorage_findMany
         (LocalStorage {[ "db_products" :=
            JSON_stringify [[("id", JStr "7"); ("tags", JArr [])]] ]})
         "products" (Some [("tags", Some (JArr []))]))
  = Resolved [].
Proof.
  apply (findMany_reference_filter _ _ _ "tags" (JArr [])).
  - by left.
  - left. by exists [].
Defined.

(** The scenario of two inserts: in a browser, starting from an empty
    table, after inserting one record of category "shoes" and one of
    another category (data with unique property names), [findMany] with
    the filter category = "shoes" returns the first record only. *)
Theorem findMany_after_two_inserts (r1 r2 : Readings)
  (items : gmap string JsonText) (table other : string) (data1 data2 : Row) :
  getTableData (LocalStorage items) table = [] ->
  NoDup (map fst data1) -> NoDup (map fst data2) ->
  objGet data1 "category" = Some (JStr "shoes") ->
  objGet data2 "category" = Some (JStr other) ->
  other <> "shoes" ->
  let storage := newLocalStorageDatabaseProvider (Some items) in
  let storage1 := fst (LocalStorage_insert r1 storage table data1) in
  let storage2 := fst (LocalStorage_insert r2 storage1 table data2) in
  snd (LocalStorage_findMany storage2 table
                             (Some [("category", Some (JStr "shoes"))]))
  = Resolved [insertedItem r1 data1].
Proof.
  intros Hempty Hnd1 Hnd2 Hc1 Hc2 Hother. cbn zeta.
  unfold LocalStorage_findMany, LocalStorage_insert. cbn [fst snd].
  unfold newLocalStorageDatabaseProvider. rewrite Hempty.
  change (setTableData (LocalStorage items) table ?d)
    with (LocalStorage (<[tableKey table := JSON_stringify d]> items)).
  rewrite !getTableData_setTableData.
  change (getTableData
            (LocalStorage (<[tableKey table := JSON_stringify ?d]> items)) table)
    with (getTableData (setTableData (LocalStorage items) table d) table).
  rewrite !getTableData_setTableData.
  fold (insertedItem r1 data1). fold (insertedItem r2 data2).
  cbn [List.app List.filter matchesFilters forallb fst snd]. unfold propertyIs.
  destruct (insert_record_fields r1 data1 "category" Hnd1) as (_ & _ & _ & H1).
  destruct (insert_record_fields r2 data2 "category" Hnd2) as (_ & _ & _ & H2).
  rewrite H1, H2, Hc1, Hc2 by discriminate. cbn [strictEqJson].
  rewrite String.eqb_refl.
  destruct (String.eqb_spec other "shoes") as [Heq|_]; [done|]. reflexivity.
Qed.

Lemma findMany_after_two_inserts_witness :
  let r := {| dateNow := 5; randomSuffix := "abc";
              createdAt := "t"; updatedAt := "t" |} in
  let storage := newLocalStorageDatabaseProvider (Some ∅) in
  let storage1 :=
    fst (LocalStorage_insert r storage "products"
           [("name", JStr "boot"); ("category", JStr "shoes")]) in
  let storage2 :=
    fst (LocalStorage_insert r storage1 "products"
           [("name", JStr "cap"); ("category", JStr "hats")]) in
  snd (LocalStorage_findMany storage2 "products"
                             (Some [("category", Some (JStr "shoes"))]))
  = Resolved [[("id", JStr "local_5_abc"); ("name", JStr "boot");
               ("category", JStr "shoes"); ("created_at", JStr "t");
               ("updated_at", JStr "t")]].
Proof.
  cbn zeta.
  rewrite (findMany_after_two_inserts
    {| dateNow := 5; randomSuffix := "abc"; createdAt := "t"; updatedAt := "t" |}
    {| dateNow := 5; randomSuffix := "abc"; createdAt := "t"; updatedAt := "t" |}
    ∅ "products" "hats"
    [("name", JStr "boot"); ("category", JStr "shoes")]
    [("name", JStr "cap"); ("category", JStr "hats")]).
  - reflexivity.
  - reflexivity.
  - apply (bool_decide_unpack _). by vm_compute.
  - apply (bool_decide_unpack _). by vm_compute.
  - reflexivity.
  - reflexivity.
  - discriminate.
Defined.

(* ===================================================================== *)
(** ** Breadcrumbs                                                       *)
(* ===================================================================== *)

Lemma append_cons (c : ascii) (s t : string) :
  String c s +:+ t = String c (s +:+ t).
Proof. reflexivity. Qed.

Lemma append_nil_l (t : string) : EmptyString +:+ t = t.
Proof. reflexivity. Qed.

Lemma append_nil_r (s : string) : s +:+ EmptyString = s.
Proof. induction s as [|c s IH]; [done|]. by rewrite append_cons, IH. Qed.

Lemma append_assoc (s t u : string) : (s +:+ t) +:+ u = s +:+ (t +:+ u).
Proof. induction s as [|c s IH]; [done|]. by rewrite !append_cons, IH. Qed.

Lemma toUpperChar_idem (c : ascii) :
  Breadcrumbs.toUpperChar (Breadcrumbs.toUpperChar c) = Breadcrumbs.toUpperChar c.
Proof. destruct c as [[] [] [] [] [] [] [] []]; reflexivity. Qed.

Lemma toUpperChar_not_hyphen (c : ascii) :
  Ascii.eqb c "-"%char = false ->
  Ascii.eqb (Breadcrumbs.toUpperChar c) "-"%char = false.
Proof. destruct c as [[] [] [] [] [] [] [] []]; intros H; by vm_compute. Qed.

Lemma join_cons2 (sep a b : string) (l : list string) :
  Breadcrumbs.join sep (a :: b :: l)
  = a +:+ sep +:+ Breadcrumbs.join sep (b :: l).
Proof. reflexivity. Qed.

(** [formatSegment] is [formatChars] started at a word boundary. *)
Lemma formatSegment_chars (s : string) :
  match split "-"%char s with
  | [] => False
  | seg :: segs =>
      Breadcrumbs.join " " (seg :: map Breadcrumbs.capitalize segs)
      = formatChars false s
      /\ Breadcrumbs.join " " (Breadcrumbs.capitalize seg
                                 :: map Breadcrumbs.capitalize segs)
         = formatChars true s
  end.
Proof.
  induction s as [|c s IH]; [done|]. cbn [split formatChars].
  destruct (split "-"%char s) as [|seg segs]; [done|]. destruct IH as [IHf IHt].
  destruct (Ascii.eqb c "-"%char).
  - cbn [map Breadcrumbs.join Breadcrumbs.capitalize].
    cbn [map Breadcrumbs.join] in IHt.
    rewrite append_nil_l. change (" " +:+ ?t) with (String " "%char t).
    by rewrite IHt.
  - cbn [Breadcrumbs.capitalize]. destruct segs as [|seg' segs].
    + cbn in IHf |- *. by rewrite IHf.
    + cbn [map] in IHf |- *. rewrite join_cons2 in IHf.
      rewrite !join_cons2, <- IHf. split; reflexivity.
Qed.

Lemma formatSegment_formatChars (s : string) :
  Breadcrumbs.formatSegment s = formatChars true s.
Proof.
  unfold Breadcrumbs.formatSegment. pose proof (formatSegment_chars s) as H.
  destruct (split "-"%char s) as [|seg segs]; [done|]. apply H.
Qed.

Lemma formatChars_length (b : bool) (s : string) :
  String.length (formatChars b s) = String.length s.
Proof.
  revert b. induction s as [|c s IH]; intros b; [done|]. cbn.
  destruct (Ascii.eqb c "-"%char); cbn; by rewrite IH.
Qed.

Lemma formatChars_no_hyphen (b : bool) (s : string) :
  includesChar "-"%char (formatChars b s) = false.
Proof.
  revert b. induction s as [|c s IH]; intros b; [done|]. cbn [formatChars].
  destruct (Ascii.eqb c "-"%char) eqn:Hc; cbn [includesChar].
  - by rewrite IH.
  - rewrite IH, orb_false_r. destruct b; [|done].
    by apply toUpperChar_not_hyphen.
Qed.

Lemma formatChars_plain (t : string) :
  includesChar "-"%char t = false ->
  formatChars false t = t /\ formatChars true t = Breadcrumbs.capitalize t.
Proof.
  induction t as [|c t IH]; [done|]. cbn.
  intros [Hc Ht]%orb_false_elim. rewrite Hc.
  destruct (IH Ht) as [-> _]. done.
Qed.

(** [formatSegment] keeps the length of the segment, leaves no hyphen
    in it, and applying it twice is the same as applying it once. *)
Theorem formatSegment_shape (segment : string) :
  String.length (Breadcrumbs.formatSegment segment) = String.length segment
  /\ includesChar "-"%char (Breadcrumbs.formatSegment segment) = false
  /\ Breadcrumbs.formatSegment (Breadcrumbs.formatSegment segment)
     = Breadcrumbs.formatSegment segment.
Proof.
  rewrite !formatSegment_formatChars. split; [apply formatChars_length|].
  split; [apply formatChars_no_hyphen|].
  destruct (formatChars_plain (formatChars true segment)
              (formatChars_no_hyphen true segment)) as [_ ->].
  destruct segment as [|c rest]; [done|]. cbn.
  destruct (Ascii.eqb c "-"%char); cbn; [done|]. by rewrite toUpperChar_idem.
Qed.

Example formatSegment_user_settings :
  Breadcrumbs.formatSegment "user-settings" = "User Settings".
Proof. reflexivity. Qed.

(** The loop appends to what it was given. *)
Lemma pushSegments_crumbs (segments : list string) (index total : nat)
  (currentPath : string) (acc : list Breadcrumbs.BreadcrumbItem) :
  Breadcrumbs.pushSegments segments index total currentPath acc
  = acc ++ crumbsFrom segments index total currentPath.
Proof.
  revert index currentPath acc.
  induction segments as [|segment rest IH]; intros index currentPath acc; cbn.
  - by rewrite app_nil_r.
  - rewrite IH. by rewrite <- app_assoc.
Qed.

Lemma generateBreadcrumbs_crumbs (pathname : string) :
  Breadcrumbs.generateBreadcrumbs pathname
  = homeCrumb :: crumbsFrom (segmentsOf pathname) 0
                            (length (segmentsOf pathname)) EmptyString.
Proof.
  unfold Breadcrumbs.generateBreadcrumbs. cbn zeta.
  by rewrite pushSegments_crumbs.
Qed.

Lemma crumbsFrom_length (segments : list string) (index total : nat)
  (currentPath : string) :
  length (crumbsFrom segments index total currentPath) = length segments.
Proof.
  revert index currentPath.
  induction segments as [|segment rest IH]; intros index currentPath; cbn;
    [done|by rewrite IH].
Qed.

Lemma crumbsFrom_lookup (segments : list string) (index total : nat)
  (currentPath : string) (i : nat) (segment : string) :
  segments !! i = Some segment ->
  crumbsFrom segments index total currentPath !! i
  = Some {| Breadcrumbs.label := Breadcrumbs.formatSegment segment;
            Breadcrumbs.href :=
              if Nat.eqb (index + i) (total - 1) then None
              else Some (currentPath +:+ pathOf (take (S i) segments)) |}.
Proof.
  revert index currentPath i.
  induction segments as [|seg rest IH]; intros index currentPath i; [done|].
  destruct i as [|i]; cbn [crumbsFrom].
  - intros [= ->]. cbn [lookup list_lookup take pathOf].
    by rewrite Nat.add_0_r, append_nil_r.
  - intros Hi. change ((?x :: ?l) !! S i) with (l !! i).
    rewrite (IH _ _ _ Hi).
    replace (S index + i) with (index + S i) by lia.
    do 3 f_equal. cbn [take pathOf]. by rewrite append_assoc.
Qed.

(** [generateBreadcrumbs] returns 'Home' linked to '/', followed by one
    item per non-empty segment of the pathname, in order, labelled with
    the formatted segment; the last item has no link and each earlier
    one links to the path made of the segments up to it. Empty
    segments, from leading, trailing or doubled slashes, leave no
    trace. *)
Theorem generateBreadcrumbs_shape (pathname : string) :
  let segments := segmentsOf pathname in
  let crumbs := Breadcrumbs.generateBreadcrumbs pathname in
  length crumbs = S (length segments)
  /\ crumbs !! 0 = Some homeCrumb
  /\ (forall i segment,
        segments !! i = Some segment ->
        crumbs !! S i
        = Some {| Breadcrumbs.label := Breadcrumbs.formatSegment segment;
                  Breadcrumbs.href :=
                    if Nat.eqb i (length segments - 1) then None
                    else Some (pathOf (take (S i) segments)) |})
  /\ Breadcrumbs.generateBreadcrumbs (String "/"%char pathname) = crumbs.
Proof.
  cbn zeta. rewrite generateBreadcrumbs_crumbs. split; [|split; [|split]].
  - cbn. by rewrite crumbsFrom_length.
  - reflexivity.
  - intros i segment Hi. change ((?x :: ?l) !! S i) with (l !! i).
    by rewrite (crumbsFrom_lookup _ _ _ _ _ _ Hi).
  - by rewrite generateBreadcrumbs_crumbs.
Qed.

Lemma generateBreadcrumbs_shape_witness :
  Breadcrumbs.generateBreadcrumbs "/users//user-settings/" !! 1
  = Some {| Breadcrumbs.label := "Users"; Breadcrumbs.href := Some "/users" |}
  /\ Breadcrumbs.generateBreadcrumbs "/users//user-settings/" !! 2
     = Some {| Breadcrumbs.label := "User Settings"; Breadcrumbs.href := None |}.
Proof.
  destruct (generateBreadcrumbs_shape "/users//user-settings/")
    as (_ & _ & Hitem & _).
  cbn zeta in Hitem. split.
  - rewrite (Hitem 0 "users"); reflexivity.
  - rewrite (Hitem 1 "user-settings"); reflexivity.
Defined.

Lemma pathOf_truthy (segment : string) (rest : list string) :
  truthy (Some (pathOf (segment :: rest))) = true.
Proof. reflexivity. Qed.

(** Without explicit items the component renders nothing exactly when
    the pathname has no non-empty segment; an explicit empty array also
    renders nothing. Among the generated items every one but the last
    is rendered as a link, and the last never is. *)
Theorem breadcrumbs_rendering (pathname : string) (i : nat)
  (item : Breadcrumbs.BreadcrumbItem) :
  Breadcrumbs.breadcrumbItems None pathname !! i = Some item ->
  (Breadcrumbs.rendersNothing None pathname = true
   <-> segmentsOf pathname = [])
  /\ Breadcrumbs.rendersNothing (Some []) pathname = true
  /\ Breadcrumbs.isLink item i
       (length (Breadcrumbs.breadcrumbItems None pathname))
     = Nat.ltb i (length (segmentsOf pathname)).
Proof.
  intros Hitem. unfold Breadcrumbs.rendersNothing, Breadcrumbs.breadcrumbItems in *.
  destruct (generateBreadcrumbs_shape pathname) as (Hlen & Hhome & Hcrumb & _).
  cbn zeta in Hlen, Hhome, Hcrumb. rewrite Hlen.
  split; [|split; [done|]].
  - rewrite Nat.leb_le. destruct (segmentsOf pathname); cbn; [done|].
    split; [lia|done].
  - unfold Breadcrumbs.isLink. rewrite Nat.sub_succ, Nat.sub_0_r.
    destruct (Nat.ltb_spec i (length (segmentsOf pathname))) as [Hlt|Hge];
      [|by rewrite andb_false_r].
    rewrite andb_true_r. destruct i as [|i].
    + rewrite Hhome in Hitem. by injection Hitem as <-.
    + destruct (lookup_lt_is_Some_2 (segmentsOf pathname) i) as [segment Hs];
        [lia|].
      rewrite (Hcrumb i segment Hs) in Hitem. injection Hitem as <-.
      cbn [Breadcrumbs.href].
      destruct (Nat.eqb_spec i (length (segmentsOf pathname) - 1)); [lia|].
      destruct (segmentsOf pathname); [done|]. apply pathOf_truthy.
Qed.

Lemma breadcrumbs_rendering_witness :
  Breadcrumbs.rendersNothing None "/" = true
  /\ Breadcrumbs.isLink homeCrumb 0
       (length (Breadcrumbs.breadcrumbItems None "/users/42")) = true.
Proof.
  split.
  - apply (proj1 (breadcrumbs_rendering "/" 0 homeCrumb eq_refl)). reflexivity.
  - rewrite (proj2 (proj2 (breadcrumbs_rendering "/users/42" 0 homeCrumb eq_refl))).
    reflexivity.
Defined.

(* ===================================================================== *)
(** ** Sidebar                                                           *)
(* ===================================================================== *)

Lemma prefix_refl (s : string) : String.prefix s s = true.
Proof.
  induction s as [|c s IH]; [done|]. cbn. by destruct (ascii_dec c c).
Qed.

Lemma prefix_append (s t : string) : String.prefix s (s +:+ t) = true.
Proof.
  induction s as [|c s IH]; [by destruct t|].
  rewrite append_cons. cbn. by destruct (ascii_dec c c).
Qed.

(** Two prefixes of one string are prefixes of each other, one way or
    the other. *)
Lemma prefix_comparable (a b p : string) :
  String.prefix a p = true -> String.prefix b p = true ->
  String.prefix a b = true \/ String.prefix b a = true.
Proof.
  revert a b. induction p as [|c p IH]; intros a b.
  - destruct a; [left; by destruct b|]. cbn. discriminate.
  - destruct a as [|x a]; [left; by destruct b|].
    destruct b as [|y b]; [by right|].
    cbn. destruct (ascii_dec x c) as [->|]; [|done].
    destruct (ascii_dec y c) as [->|]; [|done].
    destruct (ascii_dec c c); [|done]. apply IH.
Qed.

Lemma isActive_prefix (pathname href : string) :
  Sidebar.isActive pathname href = true -> String.prefix href pathname = true.
Proof.
  unfold Sidebar.isActive.
  destruct (String.eqb_spec href "/dashboard") as [->|_]; [|done].
  intros ->%String.eqb_eq. apply prefix_refl.
Qed.

Lemma filter_none {A : Type} (f : A -> bool) (l : list A) :
  (forall x, In x l -> f x = false) -> List.filter f l = [].
Proof.
  induction l as [|x l IH]; intros H; cbn; [done|].
  rewrite (H x) by by left. apply IH. intros y Hy. apply H. by right.
Qed.

Lemma filter_at_most_one {A : Type} (f : A -> bool) (l : list A) :
  NoDup l ->
  (forall x y, In x l -> In y l -> f x = true -> f y = true -> x = y) ->
  length (List.filter f l) <= 1.
Proof.
  induction l as [|x l IH]; intros Hnd Hone; cbn; [lia|].
  apply NoDup_cons in Hnd as [Hx Hnd].
  destruct (f x) eqn:Hfx.
  - assert (Hnone : List.filter f l = []).
    { apply filter_none. intros y Hy. apply not_true_is_false. intros Hfy.
      apply Hx. apply list_elem_of_In.
      by rewrite (Hone x y (or_introl eq_refl) (or_intror Hy) Hfx Hfy). }
    rewrite Hnone. cbn. lia.
  - apply IH; [done|]. intros y z Hy Hz. apply Hone; by right.
Qed.

Lemma filter_map_length {A B : Type} (g : A -> B) (f : B -> bool) (l : list A) :
  length (List.filter (fun x => f (g x)) l) = length (List.filter f (map g l)).
Proof.
  induction l as [|x l IH]; cbn; [done|]. destruct (f (g x)); cbn; by rewrite IH.
Qed.

(** Whatever the pathname, at most one sidebar item is highlighted.
    'Dashboard' is highlighted on its exact path only; any other item
    also on every path that continues its own. *)
Theorem sidebar_at_most_one_active (pathname suffix : string)
  (item : Sidebar.SidebarItem) :
  In item Sidebar.sidebarItems ->
  length (List.filter (fun it => Sidebar.isActive pathname (Sidebar.href it))
                      Sidebar.sidebarItems) <= 1
  /\ (Sidebar.isActive pathname "/dashboard" = true <-> pathname = "/dashboard")
  /\ (Sidebar.href item <> "/dashboard" ->
      Sidebar.isActive (Sidebar.href item +:+ suffix) (Sidebar.href item) = true).
Proof.
  intros Hitem. split; [|split].
  - rewrite (filter_map_length Sidebar.href (Sidebar.isActive pathname)).
    apply filter_at_most_one.
    + apply (bool_decide_unpack _). by vm_compute.
    + intros x y Hx Hy Hax%isActive_prefix Hay%isActive_prefix.
      pose proof (prefix_comparable _ _ _ Hax Hay) as Hcmp.
      cbn in Hx, Hy.
      repeat (destruct Hx as [<-|Hx]; [|]); try done;
        repeat (destruct Hy as [<-|Hy]; [|]); try done;
        try reflexivity; by destruct Hcmp.
  - unfold Sidebar.isActive. cbn. apply String.eqb_eq.
  - intros Hnd. unfold Sidebar.isActive.
    destruct (String.eqb_spec (Sidebar.href item) "/dashboard"); [done|].
    apply prefix_append.
Qed.

Lemma sidebar_at_most_one_active_witness :
  Sidebar.isActive "/users/42" "/users" = true
  /\ length (List.filter (fun it => Sidebar.isActive "/users/42" (Sidebar.href it))
                         Sidebar.sidebarItems) <= 1.
Proof.
  destruct (sidebar_at_most_one_active "/users/42" "/42"
              {| Sidebar.name := "Users"; Sidebar.href := "/users";
                 Sidebar.badge := None |}) as (Hone & _ & Hact).
  - cbn. tauto.
  - split; [|exact Hone]. apply Hact. discriminate.
Defined.
